(** * run-ft-benchmark: a shallow embedding of [scripts/run-ft-benchmark.py]

    The script validates its command line, takes an advisory lock file,
    clones a repository into a temporary directory, runs a benchmark driver
    there and cleans up.  Python values are modelled as follows:

    - a [str] is the list of its Unicode code points; the class [\d] of
      [re] and the white space of [str.strip] are those of Unicode 14, the
      version of CPython 3.11; text written to a file is taken to be
      encodable;
    - an [int] is a [Z];
    - exceptions are values of [exn], a call returns an [outcome];
    - the file system seen by the script is a record threaded through every
      effectful function, together with the chronological log of the
      effects performed: the lock path holds a regular file or nothing, and
      the directories that exist are listed; no permission is ever
      missing, so that removing a file or a directory that exists succeeds;
    - the command line is the list of the options given, each with its
      value, as [argparse] sees them after splitting [sys.argv]; a command
      line that is not of this form (an unknown option, an option without
      its value, [--help]) is not represented, and nothing is stated about
      it;
    - the operating system (what running a shell command does, the name
      drawn by [tempfile.mkdtemp]) and the built-in [int] are parameters of
      the development; what a command prints is taken to be decodable
      text, and a command started in a directory that does not exist is
      never run. *)

From Stdlib Require Import List NArith ZArith Bool Lia String Ascii.
From Stdlib Require Import DecimalString.
Import ListNotations.

Set Implicit Arguments.

(** ** Python strings *)

Definition char := N.
Definition str := list char.

(** The code points of a literal (all our literals are ASCII). *)
Definition py (s : string) : str := map N_of_ascii (list_ascii_of_string s).

Definition LF : char := 10%N.
Definition CR : char := 13%N.
Definition SLASH : char := 47%N.
Definition SPACE : char := 32%N.

Fixpoint str_eqb (a b : str) : bool :=
  match a, b with
  | [], [] => true
  | x :: a', y :: b' => N.eqb x y && str_eqb a' b'
  | _, _ => false
  end.

(** [b.startswith(a)] *)
Fixpoint startswith (a b : str) : bool :=
  match a, b with
  | [], _ => true
  | x :: a', y :: b' => N.eqb x y && startswith a' b'
  | _ :: _, [] => false
  end.

Fixpoint dropwhile (p : char -> bool) (s : str) : str :=
  match s with
  | [] => []
  | c :: s' => if p c then dropwhile p s' else s
  end.

Fixpoint takewhile (p : char -> bool) (s : str) : str :=
  match s with
  | [] => []
  | c :: s' => if p c then c :: takewhile p s' else []
  end.

(** Zero digits of the Unicode decimal-digit blocks (general category Nd,
    Unicode 14 as shipped with CPython 3.11); every block is ten consecutive
    code points.  This is the class [\d] of a [str] pattern. *)
Definition decimal_zeros : list N :=
  [48; 1632; 1776; 1984; 2406; 2534; 2662; 2790; 2918; 3046; 3174; 3302;
   3430; 3558; 3664; 3792; 3872; 4160; 4240; 6112; 6160; 6470; 6608; 6784;
   6800; 6992; 7088; 7232; 7248; 42528; 43216; 43264; 43472; 43504; 43600;
   44016; 65296; 66720; 68912; 69734; 69872; 69942; 70096; 70384; 70736;
   70864; 71248; 71360; 71472; 71904; 72016; 72784; 73040; 73120; 92768;
   92864; 93008; 120782; 120792; 120802; 120812; 120822; 123200; 123632;
   125264; 130032]%N.

Definition isdecimal (c : char) : bool :=
  existsb (fun z => (z <=? c)%N && (c <? z + 10)%N) decimal_zeros.

(** [str.isspace] on one character. *)
Definition whitespace : list N :=
  [9; 10; 11; 12; 13; 28; 29; 30; 31; 32; 133; 160; 5760; 8192; 8193; 8194;
   8195; 8196; 8197; 8198; 8199; 8200; 8201; 8202; 8232; 8233; 8239; 8287;
   12288]%N.

Definition isspace (c : char) : bool := existsb (N.eqb c) whitespace.

(** [s.strip()] *)
Definition lstrip (s : str) : str := dropwhile isspace s.
Definition rstrip (s : str) : str := rev (dropwhile isspace (rev s)).
Definition strip (s : str) : str := lstrip (rstrip s).

(** [sys.get_int_max_str_digits()]: CPython 3.11 converts between [int] and
    [str] up to this number of digits and raises [ValueError] beyond. *)
Definition int_max_str_digits : Z := 4300.

(** [str(n)] for an [int] of at most [int_max_str_digits] digits, as used by
    an f-string field.  The integers of the script come from [int] applied
    to an argument of the command line, or are defaults, and are in that
    range. *)
Definition str_of_int (n : Z) : str := py (NilZero.string_of_int (Z.to_int n)).

(** ** Exceptions and results *)

Inductive exn : Type :=
| ArgumentTypeError (msg : str)
| RuntimeError (msg : str)
| FileExistsError (path : str)
| FileNotFoundError (path : str)
| SystemExit (status : Z).

Inductive outcome (A : Type) : Type :=
| Return (a : A)
| Raise (e : exn).
Arguments Return {A} a.
Arguments Raise {A} e.

(** ** The fragment of [re] used by the script

    Quantifiers are applied to character classes only, which is all the two
    patterns need; matching is by backtracking, greedy quantifiers first,
    as in [sre]. *)

Module Re.

Inductive cclass : Type :=
| Digit                       (* \d *)
| OneOf (cs : str).           (* [...] *)

Definition in_class (k : cclass) (c : char) : bool :=
  match k with
  | Digit => isdecimal c
  | OneOf cs => existsb (N.eqb c) cs
  end.

Inductive regex : Type :=
| Bol                         (* ^ *)
| Eol                         (* $ *)
| Chr (k : cclass)
| Plus (k : cclass)           (* k+ *)
| Opt (k : cclass)            (* k? *)
| Group (n : nat) (r : regex) (* the n-th parenthesis *)
| Cat (r1 r2 : regex).

(** Captured groups, most recent first. *)
Definition captures := list (nat * str).

(** Greedy [k+] in front of the continuation [kont]: take one more character
    when possible, and give back on failure. *)
Fixpoint plus_k (A : Type) (p : char -> bool) (i : nat) (s : str)
    (kont : nat -> str -> option A) : option A :=
  match s with
  | [] => None
  | c :: s' =>
      if p c then
        match plus_k p (S i) s' kont with
        | Some r => Some r
        | None => kont (S i) s'
        end
      else None
  end.

(** [rmatch r i s g kont]: match [r] at offset [i] of the subject, [s] being
    the rest of the subject from there.  Without flags, [^] holds at offset
    0 only and [$] holds at the end and just before a final newline. *)
Fixpoint rmatch (r : regex) (i : nat) (s : str) (g : captures)
    (kont : nat -> str -> captures -> option captures) : option captures :=
  match r with
  | Bol => if Nat.eqb i 0 then kont i s g else None
  | Eol =>
      match s with
      | [] => kont i s g
      | c :: [] => if N.eqb c LF then kont i s g else None
      | _ => None
      end
  | Chr k =>
      match s with
      | c :: s' => if in_class k c then kont (S i) s' g else None
      | [] => None
      end
  | Plus k => plus_k (in_class k) i s (fun i' s' => kont i' s' g)
  | Opt k =>
      match s with
      | c :: s' =>
          if in_class k c then
            match kont (S i) s' g with
            | Some m => Some m
            | None => kont i s g
            end
          else kont i s g
      | [] => kont i s g
      end
  | Group n r1 =>
      rmatch r1 i s g (fun i' s' g' => kont i' s' ((n, firstn (i' - i) s) :: g'))
  | Cat r1 r2 =>
      rmatch r1 i s g (fun i' s' g' => rmatch r2 i' s' g' kont)
  end.

(** [re.match(pattern, subject)]: a match anchored at offset 0. *)
Definition match_ (pattern : regex) (subject : str) : option captures :=
  rmatch pattern 0 subject [] (fun _ _ g => Some g).

(** [m.group(n)] for a group that took part in the match. *)
Fixpoint group (m : captures) (n : nat) : str :=
  match m with
  | [] => []
  | (k, v) :: m' => if Nat.eqb k n then v else group m' n
  end.

End Re.

(** ** The argument validators *)

(** [r'^(\d+)([hms])$'] *)
Definition time_pattern : Re.regex :=
  Re.Cat Re.Bol
    (Re.Cat (Re.Group 1 (Re.Plus Re.Digit))
       (Re.Cat (Re.Group 2 (Re.Chr (Re.OneOf (py "hms")))) Re.Eol)).

(** [r'^(\d+)([KMG]?)$'] *)
Definition state_pattern : Re.regex :=
  Re.Cat Re.Bol
    (Re.Cat (Re.Group 1 (Re.Plus Re.Digit))
       (Re.Cat (Re.Group 2 (Re.Opt (Re.OneOf (py "KMG")))) Re.Eol)).

Definition invalid_time_message (time_str : str) : str :=
  py "Invalid time format: '" ++ time_str ++
  py "'. Must be a number followed by 'h', 'm', or 's'.".

Definition invalid_state_message (state_str : str) : str :=
  py "Invalid state format: '" ++ state_str ++
  py "'. Must be a number optionally followed by 'K', 'M', or 'G'.".

Definition parse_time (time_str : str) : outcome str :=
  match Re.match_ time_pattern time_str with
  | None => Raise (ArgumentTypeError (invalid_time_message time_str))
  | Some m => Return (Re.group m 1 ++ Re.group m 2)
  end.

Definition parse_state (state_str : str) : outcome str :=
  match Re.match_ state_pattern state_str with
  | None => Raise (ArgumentTypeError (invalid_state_message state_str))
  | Some m => Return (Re.group m 1 ++ Re.group m 2)
  end.

(** ** The file system, the effect log and the operating system *)

Definition LOCK_FILE : str := py "/tmp/run-ft-benchmark.lock".
Definition REPO_URL : str := py "https://github.com/near/nearcore".

(** What the script can observe on disk: the text of the file at
    [LOCK_FILE] when that file exists, and the directories that exist. The
    lock path holds a regular file or nothing. *)
Record filesystem : Type := {
  lock_file : option str;
  dirs : list str
}.

(** A [subprocess.CompletedProcess] captured with [text=True]. *)
Record completed : Type := {
  returncode : Z;
  stdout : str;
  stderr : str
}.

Inductive event : Type :=
| EvWrite (path data : str)          (* open(path, 'w').write(data) *)
| EvRemove (path : str)              (* os.remove(path) *)
| EvMkdtemp (dir : str)              (* tempfile.mkdtemp() returned dir *)
| EvRmtree (dir : str)               (* shutil.rmtree(dir) *)
| EvExec (command : str) (cwd : option str) (result : completed)
                                     (* subprocess.run(command, shell=True, cwd=cwd) *)
| EvPrint (line : str).              (* print(line) *)

(** The file system and the log of the effects so far, oldest first. *)
Record world : Type := {
  fs : filesystem;
  log : list event
}.

(** The operating system: the directory name [tempfile.mkdtemp] draws and
    what running a shell command does, namely the completed process and
    the file system it leaves. *)
Record environment : Type := {
  mkdtemp_name : filesystem -> str;
  shell : str -> option str -> filesystem -> completed * filesystem
}.

(** Effectful code: a world transformer that returns or raises. *)
Definition M (A : Type) : Type := world -> outcome A * world.

Definition ret (A : Type) (a : A) : M A := fun w => (Return a, w).

Definition raise (A : Type) (e : exn) : M A := fun w => (Raise e, w).
Arguments raise {A} e.

Definition bind (A B : Type) (m : M A) (k : A -> M B) : M B :=
  fun w =>
    match m w with
    | (Return a, w') => k a w'
    | (Raise e, w') => (Raise e, w')
    end.

Notation "x <- m ;; k" := (bind m (fun x => k))
  (at level 61, m at next level, right associativity).
Notation "m ;; k" := (bind m (fun _ => k))
  (at level 61, right associativity).

(** [try: body  except RuntimeError as e: handler(e)] *)
Definition try_except_RuntimeError (A : Type) (body : M A) (handler : str -> M A) : M A :=
  fun w =>
    match body w with
    | (Raise (RuntimeError msg), w') => handler msg w'
    | r => r
    end.

Definition emit (e : event) (w : world) : world :=
  {| fs := fs w; log := log w ++ [e] |}.

Definition print (line : str) : M unit :=
  fun w => (Return tt, emit (EvPrint line) w).

(** ** [os.path] *)

Module Posixpath.

Definition endswith_slash (a : str) : bool :=
  match rev a with
  | c :: _ => N.eqb c SLASH
  | [] => false
  end.

(** [os.path.join(a, b)] *)
Definition join (a b : str) : str :=
  if startswith [SLASH] b then b
  else if match a with [] => true | _ => false end || endswith_slash a then a ++ b
  else a ++ [SLASH] ++ b.

(** [p[:p.rfind('/') + 1]] *)
Definition head_of (p : str) : str :=
  rev (dropwhile (fun c => negb (N.eqb c SLASH)) (rev p)).

(** [os.path.dirname(p)] *)
Definition dirname (p : str) : str :=
  let head := head_of p in
  if match head with [] => false | _ => true end && negb (forallb (N.eqb SLASH) head)
  then rev (dropwhile (N.eqb SLASH) (rev head))
  else head.

End Posixpath.

(** [os.path.exists(p)] for a directory path. *)
Definition isdir (p : str) (f : filesystem) : bool := existsb (str_eqb p) (dirs f).

(** [p] is the directory [d] or lies below it. *)
Definition under (d p : str) : bool := str_eqb d p || startswith (d ++ [SLASH]) p.

Definition path_exists (p : str) : M bool := fun w => (Return (isdir p (fs w)), w).

(** [shutil.rmtree(d)] *)
Definition rmtree (d : str) : M unit :=
  fun w =>
    if isdir d (fs w) then
      (Return tt,
       emit (EvRmtree d)
         {| fs := {| lock_file := lock_file (fs w);
                     dirs := filter (fun p => negb (under d p)) (dirs (fs w)) |};
            log := log w |})
    else (Raise (FileNotFoundError d), w).

(** Reading a file opened in text mode translates line endings. *)
Fixpoint universal_newlines (s : str) : str :=
  match s with
  | [] => []
  | c :: rest =>
      if N.eqb c CR then
        LF :: match rest with
              | [] => []
              | c' :: rest' =>
                  if N.eqb c' LF then universal_newlines rest'
                  else universal_newlines rest
              end
      else c :: universal_newlines rest
  end.

(** ** The run lock *)

(** [os.path.exists(LOCK_FILE)] *)
Definition lock_exists : M bool :=
  fun w =>
    (Return match lock_file (fs w) with Some _ => true | None => false end, w).

(** [open(LOCK_FILE, 'r').read()] *)
Definition read_lock : M str :=
  fun w =>
    match lock_file (fs w) with
    | Some content => (Return (universal_newlines content), w)
    | None => (Raise (FileNotFoundError LOCK_FILE), w)
    end.

(** [open(LOCK_FILE, 'w').write(data)]: the file is created or truncated. *)
Definition write_lock (data : str) : M unit :=
  fun w =>
    (Return tt,
     emit (EvWrite LOCK_FILE data)
       {| fs := {| lock_file := Some data; dirs := dirs (fs w) |};
          log := log w |}).

(** [os.remove(LOCK_FILE)] *)
Definition remove_lock : M unit :=
  fun w =>
    match lock_file (fs w) with
    | Some _ =>
        (Return tt,
         emit (EvRemove LOCK_FILE)
           {| fs := {| lock_file := None; dirs := dirs (fs w) |};
              log := log w |})
    | None => (Raise (FileNotFoundError LOCK_FILE), w)
    end.

Definition create_lock_file (user : str) : M unit :=
  held <- lock_exists ;;
  (if held then
     content <- read_lock ;;
     let running_user := strip content in
     raise (RuntimeError (running_user ++ py " already running benchmark"))
   else ret tt) ;;
  write_lock user.

Definition remove_lock_file : M unit :=
  held <- lock_exists ;;
  if held then remove_lock else ret tt.

(** ** The command line *)

Record namespace : Type := {
  time : str;
  users : Z;
  state : str;
  shards : Z;
  nodes : Z;
  rump_up : Z;
  user : str;
  commit : option str
}.

Inductive flag : Type :=
| FTime | FUsers | FState | FShards | FNodes | FRumpUp | FUser | FCommit.

(** The options given so far, each with its converted value. *)
Record seen : Type := {
  s_time : option str;
  s_users : option Z;
  s_state : option str;
  s_shards : option Z;
  s_nodes : option Z;
  s_rump_up : option Z;
  s_user : option str;
  s_commit : option str
}.

Definition nothing_seen : seen :=
  {| s_time := None; s_users := None; s_state := None; s_shards := None;
     s_nodes := None; s_rump_up := None; s_user := None; s_commit := None |}.

(** [f"Command '{command}' failed with error: {result.stderr}"] *)
Definition failure_message (command : str) (result : completed) : str :=
  py "Command '" ++ command ++ py "' failed with error: " ++ stderr result.

Section Script.

(** The operating system the script runs on. *)
Variable os : environment.

(** The built-in [int] applied to a [str]; [None] is a [ValueError]. *)
Variable int : str -> option Z.

(** [tempfile.mkdtemp()]: a directory that did not exist is created. *)
Definition mkdtemp : M str :=
  fun w =>
    let d := mkdtemp_name os (fs w) in
    if isdir d (fs w) then (Raise (FileExistsError d), w)
    else
      (Return d,
       emit (EvMkdtemp d)
         {| fs := {| lock_file := lock_file (fs w); dirs := d :: dirs (fs w) |};
            log := log w |}).

(** The shell is started on [command] and waited for. *)
Definition spawn (command : str) (cwd : option str) : M completed :=
  fun w =>
    let (result, f) := shell os command cwd (fs w) in
    (Return result, emit (EvExec command cwd result) {| fs := f; log := log w |}).

(** [subprocess.run(command, shell=True, cwd=cwd, capture_output=True,
    text=True)]: the child process changes to [cwd] before the shell is
    started, and nothing is run when that directory does not exist. *)
Definition subprocess_run (command : str) (cwd : option str) : M completed :=
  fun w =>
    match cwd with
    | Some d =>
        if isdir d (fs w) then spawn command cwd w
        else (Raise (FileNotFoundError d), w)
    | None => spawn command cwd w
    end.

Definition run_command (command : str) (cwd : option str) : M str :=
  result <- subprocess_run command cwd ;;
  if negb (returncode result =? 0)%Z then
    raise (RuntimeError (failure_message command result))
  else ret (strip (stdout result)).

Definition clone_command (repo_dir : str) : str :=
  py "git clone " ++ REPO_URL ++ py " " ++ repo_dir.

(** The [try] block of [checkout_repo]. *)
Definition checkout_try (repo_dir : str) (commit : option str) : M str :=
  run_command (py "git config --global http.postBuffer 524288000") None ;;
  run_command (clone_command repo_dir) None ;;
  run_command (py "git fetch") (Some repo_dir) ;;
  commit <-
    match commit with
    | Some (c :: cs) => ret (c :: cs)
    | _ => run_command (py "git rev-parse origin/master") (Some repo_dir)
    end ;;
  run_command (py "git checkout " ++ commit) (Some repo_dir) ;;
  ret commit.

Definition checkout_repo (commit : option str) : M (str * str) :=
  temp_dir <- mkdtemp ;;
  let repo_dir := Posixpath.join temp_dir (py "nearcore") in
  commit <-
    try_except_RuntimeError
      (checkout_try repo_dir commit)
      (fun e => rmtree temp_dir ;; raise (RuntimeError e)) ;;
  ret (repo_dir, commit).

Definition benchmark_command (time : str) (users : Z) (state : str)
    (shards nodes rump_up : Z) (user : str) : str :=
  py "./scripts/start_benchmark.sh " ++ time ++ py " " ++ str_of_int users ++
  py " " ++ state ++ py " " ++ str_of_int shards ++ py " " ++ str_of_int nodes ++
  py " " ++ str_of_int rump_up ++ py " " ++ user.

Definition run_benchmark (repo_dir time : str) (users : Z) (state : str)
    (shards nodes rump_up : Z) (user : str) : M unit :=
  run_command (benchmark_command time users state shards nodes rump_up user)
    (Some repo_dir) ;;
  ret tt.

(** One option of the command line: the [type=] conversion of its value,
    stored over any earlier occurrence.  A conversion that raises makes
    [argparse] print the usage and exit with status 2. *)
Definition convert_str (conv : str -> outcome str) (v : str) : outcome str :=
  match conv v with
  | Return x => Return x
  | Raise _ => Raise (SystemExit 2)
  end.

Definition convert_int (v : str) : outcome Z :=
  match int v with
  | Some n => Return n
  | None => Raise (SystemExit 2)
  end.

Definition store (s : seen) (o : flag) (v : str) : outcome seen :=
  match o with
  | FTime =>
      match convert_str parse_time v with
      | Return x =>
          Return {| s_time := Some x; s_users := s_users s; s_state := s_state s;
                    s_shards := s_shards s; s_nodes := s_nodes s;
                    s_rump_up := s_rump_up s; s_user := s_user s;
                    s_commit := s_commit s |}
      | Raise e => Raise e
      end
  | FUsers =>
      match convert_int v with
      | Return x =>
          Return {| s_time := s_time s; s_users := Some x; s_state := s_state s;
                    s_shards := s_shards s; s_nodes := s_nodes s;
                    s_rump_up := s_rump_up s; s_user := s_user s;
                    s_commit := s_commit s |}
      | Raise e => Raise e
      end
  | FState =>
      match convert_str parse_state v with
      | Return x =>
          Return {| s_time := s_time s; s_users := s_users s; s_state := Some x;
                    s_shards := s_shards s; s_nodes := s_nodes s;
                    s_rump_up := s_rump_up s; s_user := s_user s;
                    s_commit := s_commit s |}
      | Raise e => Raise e
      end
  | FShards =>
      match convert_int v with
      | Return x =>
          Return {| s_time := s_time s; s_users := s_users s; s_state := s_state s;
                    s_shards := Some x; s_nodes := s_nodes s;
                    s_rump_up := s_rump_up s; s_user := s_user s;
                    s_commit := s_commit s |}
      | Raise e => Raise e
      end
  | FNodes =>
      match convert_int v with
      | Return x =>
          Return {| s_time := s_time s; s_users := s_users s; s_state := s_state s;
                    s_shards := s_shards s; s_nodes := Some x;
                    s_rump_up := s_rump_up s; s_user := s_user s;
                    s_commit := s_commit s |}
      | Raise e => Raise e
      end
  | FRumpUp =>
      match convert_int v with
      | Return x =>
          Return {| s_time := s_time s; s_users := s_users s; s_state := s_state s;
                    s_shards := s_shards s; s_nodes := s_nodes s;
                    s_rump_up := Some x; s_user := s_user s;
                    s_commit := s_commit s |}
      | Raise e => Raise e
      end
  | FUser =>
      Return {| s_time := s_time s; s_users := s_users s; s_state := s_state s;
                s_shards := s_shards s; s_nodes := s_nodes s;
                s_rump_up := s_rump_up s; s_user := Some v;
                s_commit := s_commit s |}
  | FCommit =>
      Return {| s_time := s_time s; s_users := s_users s; s_state := s_state s;
                s_shards := s_shards s; s_nodes := s_nodes s;
                s_rump_up := s_rump_up s; s_user := s_user s;
                s_commit := Some v |}
  end.

(** The options of the command line, left to right. *)
Fixpoint consume (argv : list (flag * str)) (s : seen) : outcome seen :=
  match argv with
  | [] => Return s
  | (o, v) :: rest =>
      match store s o v with
      | Return s' => consume rest s'
      | Raise e => Raise e
      end
  end.

(** An option that was not given takes its default; a default that is a
    string goes through the conversion of the option. *)
Definition with_default (A : Type) (given : option A) (default : outcome A) : outcome A :=
  match given with
  | Some x => Return x
  | None => default
  end.

Definition defaults (s : seen) : outcome namespace :=
  match with_default (s_time s) (convert_str parse_time (py "1h")) with
  | Raise e => Raise e
  | Return time =>
      match with_default (s_state s) (convert_str parse_state (py "1G")) with
      | Raise e => Raise e
      | Return state =>
          Return {| time := time;
                    users := match s_users s with Some n => n | None => 100 end;
                    state := state;
                    shards := match s_shards s with Some n => n | None => 1 end;
                    nodes := match s_nodes s with Some n => n | None => 1 end;
                    rump_up := match s_rump_up s with Some n => n | None => 5 end;
                    user := match s_user s with Some u => u | None => py "default_user" end;
                    commit := s_commit s |}
      end
  end.

(** [parser.parse_args()] on the options of the command line. *)
Definition parse_args (argv : list (flag * str)) : outcome namespace :=
  match consume argv nothing_seen with
  | Raise e => Raise e
  | Return s => defaults s
  end.

(** The [try] block of [main]; the first component is the local variable
    [repo_dir], bound once [checkout_repo] has returned. *)
Definition main_try (args : namespace) : world -> option str * outcome unit * world :=
  fun w =>
    match
      (create_lock_file (user args) ;;
       print (py "Time: " ++ time args) ;;
       print (py "Users: " ++ str_of_int (users args)) ;;
       print (py "State: " ++ state args) ;;
       print (py "Shards: " ++ str_of_int (shards args)) ;;
       print (py "Nodes: " ++ str_of_int (nodes args)) ;;
       print (py "Rump-up: " ++ str_of_int (rump_up args)) ;;
       print (py "User: " ++ user args) ;;
       checkout_repo (commit args)) w
    with
    | (Raise e, w1) => (None, Raise e, w1)
    | (Return (repo_dir, commit), w1) =>
        let (r, w2) :=
          (print (py "Using commit: " ++ commit) ;;
           run_benchmark repo_dir (time args) (users args) (state args)
             (shards args) (nodes args) (rump_up args) (user args)) w1 in
        (Some repo_dir, r, w2)
    end.

(** The [finally] block of [main]. *)
Definition main_finally (repo_dir : option str) : M unit :=
  remove_lock_file ;;
  match repo_dir with
  | Some repo_dir =>
      present <- path_exists repo_dir ;;
      if present then rmtree (Posixpath.dirname repo_dir) else ret tt
  | None => ret tt
  end.

(** [main] once the command line is parsed: the [try] block, the handler
    that prints a [RuntimeError], and the [finally] block, whose own
    exception, if any, replaces a pending one. *)
Definition main_run (args : namespace) : M unit :=
  fun w =>
    let '(repo_dir, r, w1) := main_try args w in
    let (r1, w2) :=
      match r with
      | Raise (RuntimeError msg) => print msg w1
      | _ => (r, w1)
      end in
    match main_finally repo_dir w2 with
    | (Raise e, w3) => (Raise e, w3)
    | (Return _, w3) => (r1, w3)
    end.

Definition main (argv : list (flag * str)) : M unit :=
  fun w =>
    match parse_args argv with
    | Raise e => (Raise e, w)
    | Return args => main_run args w
    end.

End Script.

(** ** A sample operating system

    Used to run the script on concrete inputs: [mkdtemp] always draws the
    same name, a command fails with status 1 when [failing] selects it, a
    successful [git clone] creates its target directory, and
    [git rev-parse] prints a commit followed by a newline. *)

(** [b] without its prefix [a]. *)
Fixpoint removeprefix (a b : str) : option str :=
  match a, b with
  | [], _ => Some b
  | x :: a', y :: b' => if N.eqb x y then removeprefix a' b' else None
  | _ :: _, [] => None
  end.

Definition sample_shell (failing : str -> bool) (command : str)
    (cwd : option str) (f : filesystem) : completed * filesystem :=
  if failing command then
    ({| returncode := 1; stdout := []; stderr := py "fatal: failed" |}, f)
  else
    match removeprefix (py "git clone " ++ REPO_URL ++ py " ") command with
    | Some target =>
        ({| returncode := 0; stdout := []; stderr := [] |},
         {| lock_file := lock_file f; dirs := target :: dirs f |})
    | None =>
        if str_eqb command (py "git rev-parse origin/master") then
          ({| returncode := 0; stdout := py "abc123" ++ [LF]; stderr := [] |}, f)
        else ({| returncode := 0; stdout := []; stderr := [] |}, f)
    end.

Definition sample_os (failing : str -> bool) : environment :=
  {| mkdtemp_name := fun _ => py "/tmp/tmpk3v9x2q1";
     shell := sample_shell failing |}.

Definition nothing_fails (command : str) : bool := false.

(** An operating system whose commands all exit with status 0 and change
    nothing: its [git clone] does not create the repository. *)
Definition idle_os : environment :=
  {| mkdtemp_name := fun _ => py "/tmp/tmpk3v9x2q1";
     shell := fun _ _ f => ({| returncode := 0; stdout := []; stderr := [] |}, f) |}.

(** The built-in [int] on plain ASCII decimal literals. *)
Fixpoint decimal_value (s : str) (acc : Z) : option Z :=
  match s with
  | [] => Some acc
  | c :: s' =>
      if (48 <=? c)%N && (c <=? 57)%N
      then decimal_value s' (10 * acc + Z.of_N (c - 48))
      else None
  end.

Definition ascii_int (s : str) : option Z :=
  match s with
  | [] => None
  | c :: s' =>
      if N.eqb c 45 then
        match s' with
        | [] => None
        | _ => option_map Z.opp (decimal_value s' 0)
        end
      else decimal_value s 0
  end.

(** The command line of the scenario of the specification, parsed. *)
Definition sample_args : namespace :=
  {| time := py "2h"; users := 50; state := py "2G"; shards := 4; nodes := 2;
     rump_up := 10; user := py "alice"; commit := Some (py "abc123") |}.

Definition empty_world : world :=
  {| fs := {| lock_file := None; dirs := [] |}; log := [] |}.

Definition sample_argv : list (flag * str) :=
  [(FTime, py "2h"); (FUsers, py "50"); (FState, py "2G"); (FShards, py "4");
   (FNodes, py "2"); (FRumpUp, py "10"); (FUser, py "alice");
   (FCommit, py "abc123")].

(** ** Reading the effect log *)




(** An external command that exited with status 0. *)
Definition exec_ok (e : event) : Prop :=
  match e with
  | EvExec _ _ result => returncode result = 0%Z
  | _ => False
  end.


(** The temporary directory of a run of [main] that starts in [w] with the
    lock free: the name [mkdtemp] draws once the lock file is written. *)
Definition run_temp_dir (os : environment) (args : namespace) (w : world) : str :=
  mkdtemp_name os {| lock_file := Some (user args); dirs := dirs (fs w) |}.

(** What [main] logs up to the call of [checkout_repo]: the lock file is
    written and the configuration is printed. *)
Definition announcement (args : namespace) : list event :=
  [EvWrite LOCK_FILE (user args);
   EvPrint (py "Time: " ++ time args);
   EvPrint (py "Users: " ++ str_of_int (users args));
   EvPrint (py "State: " ++ state args);
   EvPrint (py "Shards: " ++ str_of_int (shards args));
   EvPrint (py "Nodes: " ++ str_of_int (nodes args));
   EvPrint (py "Rump-up: " ++ str_of_int (rump_up args));
   EvPrint (py "User: " ++ user args)].

(** The commands of a workspace preparation that succeeds: configure,
    clone into [repo_dir], fetch, resolve the commit when none was given,
    check it out; every one exits with status 0. *)
Definition checkout_ok_log (repo_dir : str) (commit : option str)
    (resolved : str) (evs : list event) : Prop :=
  exists r0 r1 r2 r4,
    returncode r0 = 0%Z /\ returncode r1 = 0%Z /\ returncode r2 = 0%Z /\
    returncode r4 = 0%Z /\
    match commit with
    | Some (x :: xs) =>
        resolved = x :: xs /\
        evs = [EvExec (py "git config --global http.postBuffer 524288000") None r0;
               EvExec (clone_command repo_dir) None r1;
               EvExec (py "git fetch") (Some repo_dir) r2;
               EvExec (py "git checkout " ++ resolved) (Some repo_dir) r4]
    | _ =>
        exists r3,
          returncode r3 = 0%Z /\ resolved = strip (stdout r3) /\
          evs = [EvExec (py "git config --global http.postBuffer 524288000") None r0;
                 EvExec (clone_command repo_dir) None r1;
                 EvExec (py "git fetch") (Some repo_dir) r2;
                 EvExec (py "git rev-parse origin/master") (Some repo_dir) r3;
                 EvExec (py "git checkout " ++ resolved) (Some repo_dir) r4]
    end.

(** The commands of a workspace preparation, each with its working
    directory, in the order of [checkout_repo]. *)
Definition checkout_commands (repo_dir : str) (commit : option str)
    (resolved : str) : list (str * option str) :=
  (py "git config --global http.postBuffer 524288000", None) ::
  (clone_command repo_dir, None) ::
  (py "git fetch", Some repo_dir) ::
  match commit with
  | Some (_ :: _) => []
  | _ => [(py "git rev-parse origin/master", Some repo_dir)]
  end ++
  [(py "git checkout " ++ resolved, Some repo_dir)].

Definition command_of (e : event) : str * option str :=
  match e with
  | EvExec command cwd _ => (command, cwd)
  | _ => ([], None)
  end.

(** The log of a workspace preparation that fails: the first commands of
    the preparation, which exit with status 0, then the next one, which
    does not, then the removal of the temporary directory; [msg] is the
    message of the error raised. *)
Definition checkout_failed_log (temp_dir repo_dir : str) (commit : option str)
    (msg : str) (evs : list event) : Prop :=
  exists pre command cwd result resolved,
    Forall exec_ok pre /\ returncode result <> 0%Z /\
    msg = failure_message command result /\
    evs = pre ++ [EvExec command cwd result; EvRmtree temp_dir] /\
    firstn (List.length pre + 1) (checkout_commands repo_dir commit resolved) =
    map command_of pre ++ [(command, cwd)].

(** The working directory of a command exists. *)
Definition cwd_exists (cwd : option str) (f : filesystem) : bool :=
  match cwd with
  | Some d => isdir d f
  | None => true
  end.

(** What the operating system does with [commands] run one after the
    other from the file system [f], whatever their exit status: the events
    logged and the file system left. *)
Fixpoint execute (os : environment) (commands : list (str * option str))
    (f : filesystem) : list event * filesystem :=
  match commands with
  | [] => ([], f)
  | (command, cwd) :: rest =>
      let (result, f1) := shell os command cwd f in
      let (evs, f2) := execute os rest f1 in
      (EvExec command cwd result :: evs, f2)
  end.

(** The words of a command line made of plain words: the pieces between
    blanks. *)
Fixpoint words_from (s word : str) : list str :=
  match s with
  | [] => [word]
  | c :: s' =>
      if N.eqb c SPACE then word :: words_from s' []
      else words_from s' (word ++ [c])
  end.

Definition words (s : str) : list str := words_from s [].

Definition plain_word (a : str) : Prop :=
  forallb (fun c => negb (N.eqb c SPACE)) a = true.

(** ** Assumptions on the operating system

    External commands leave the lock file alone and remove no directory,
    and a [git clone] that exits with status 0 has created its target. *)
Record well_behaved (os : environment) : Prop := {
  keeps_lock : forall command cwd f,
    lock_file (snd (shell os command cwd f)) = lock_file f;
  keeps_dirs : forall command cwd f p,
    In p (dirs f) -> In p (dirs (snd (shell os command cwd f)));
  clone_creates : forall repo_dir f,
    returncode (fst (shell os (clone_command repo_dir) None f)) = 0%Z ->
    In repo_dir (dirs (snd (shell os (clone_command repo_dir) None f)))
}.

(** The arguments of the benchmark driver, in the order of the
    specification: duration, users, state size, shards, nodes, ramp-up,
    user identifier. *)
Definition benchmark_arguments (args : namespace) : list str :=
  [time args; str_of_int (users args); state args; str_of_int (shards args);
   str_of_int (nodes args); str_of_int (rump_up args); user args].

(** A command line: the program and its arguments, one blank before each
    argument. *)
Definition command_line (program : str) (arguments : list str) : str :=
  program ++ List.concat (map (fun a => SPACE :: a) arguments).

(** ** Reading the command line *)

Definition flag_eqb (a b : flag) : bool :=
  match a, b with
  | FTime, FTime | FUsers, FUsers | FState, FState | FShards, FShards
  | FNodes, FNodes | FRumpUp, FRumpUp | FUser, FUser | FCommit, FCommit => true
  | _, _ => false
  end.

(** The value of the last occurrence of option [o] on the command line. *)
Fixpoint last_value (o : flag) (argv : list (flag * str)) : option str :=
  match argv with
  | [] => None
  | (o', v) :: rest =>
      match last_value o rest with
      | Some x => Some x
      | None => if flag_eqb o o' then Some v else None
      end
  end.

(** The value [v] of option [o] passes the conversion of that option. *)
Definition accepted_value (int : str -> option Z) (ov : flag * str) : Prop :=
  match fst ov with
  | FTime => exists t, parse_time (snd ov) = Return t
  | FState => exists t, parse_state (snd ov) = Return t
  | FUsers | FShards | FNodes | FRumpUp => exists n, int (snd ov) = Some n
  | FUser | FCommit => True
  end.

(** ** Exceptions that escape *)

(** The value returned, if any. *)
Definition returned (A : Type) (r : outcome A) : option A :=
  match r with
  | Return a => Some a
  | Raise _ => None
  end.




(** ** The grammars of the specification *)

(** A non-negative integer literal: one decimal digit or more. *)
Definition digits (ds : str) : Prop :=
  ds <> [] /\ forallb isdecimal ds = true.

(** [<non-negative integer><unit>], the unit being one of [h], [m], [s]. *)
Definition duration_grammar (s : str) : Prop :=
  exists ds u, digits ds /\ In u (py "hms") /\ s = ds ++ [u].

(** [<non-negative integer><magnitude>], the magnitude being empty or one
    of [K], [M], [G]. *)
Definition state_grammar (s : str) : Prop :=
  exists ds, digits ds /\
    (s = ds \/ exists u, In u (py "KMG") /\ s = ds ++ [u]).

(** The value of a decimal digit and of a digit string. *)
Definition digit_value (c : char) : N :=
  match find (fun z => (z <=? c)%N && (c <? z + 10)%N) decimal_zeros with
  | Some z => (c - z)%N
  | None => 0%N
  end.

Definition int_value (ds : str) : N :=
  fold_left (fun acc c => (10 * acc + digit_value c)%N) ds 0%N.

(** The leading digits of an accepted string. *)
Definition numeric_part (s : str) : str := takewhile isdecimal s.

(** * Properties *)

(** ** Strings *)

Lemma str_eqb_eq (a b : str) : str_eqb a b = true <-> a = b.
Proof.
  revert b; induction a as [|x a IH]; intros [|y b]; simpl; split;
    try congruence; try reflexivity.
  - intros H. apply andb_true_iff in H as [Hx Ha].
    apply N.eqb_eq in Hx. apply IH in Ha. congruence.
  - intros H. injection H as -> ->.
    rewrite N.eqb_refl. simpl. now apply IH.
Qed.

Lemma str_eqb_refl (a : str) : str_eqb a a = true.
Proof. now apply str_eqb_eq. Qed.

Lemma takewhile_dropwhile (p : char -> bool) (s : str) :
  takewhile p s ++ dropwhile p s = s.
Proof.
  induction s as [|c s IH]; simpl; [reflexivity|].
  destruct (p c); simpl; congruence.
Qed.

Lemma takewhile_all (p : char -> bool) (s : str) :
  forallb p (takewhile p s) = true.
Proof.
  induction s as [|c s IH]; simpl; [reflexivity|].
  destruct (p c) eqn:E; simpl; [now rewrite E|reflexivity].
Qed.

Lemma takewhile_app (p : char -> bool) (ds rest : str) :
  forallb p ds = true ->
  takewhile p (ds ++ rest) = ds ++ takewhile p rest.
Proof.
  induction ds as [|c ds IH]; simpl; [reflexivity|].
  intros H. apply andb_true_iff in H as [Hc Hds].
  rewrite Hc. now rewrite IH.
Qed.

Lemma dropwhile_app (p : char -> bool) (ds rest : str) :
  forallb p ds = true ->
  dropwhile p (ds ++ rest) = dropwhile p rest.
Proof.
  induction ds as [|c ds IH]; simpl; [reflexivity|].
  intros H. apply andb_true_iff in H as [Hc Hds].
  rewrite Hc. now apply IH.
Qed.

Lemma dropwhile_head (p : char -> bool) (s : str) :
  match dropwhile p s with
  | [] => True
  | c :: _ => p c = false
  end.
Proof.
  induction s as [|c s IH]; simpl; [exact I|].
  destruct (p c) eqn:E; [exact IH|exact E].
Qed.

(** ** The regular expressions *)

Lemma firstn_takewhile (p : char -> bool) (s : str) :
  firstn (List.length (takewhile p s)) s = takewhile p s.
Proof.
  induction s as [|c s IH]; simpl; [reflexivity|].
  destruct (p c); simpl; [now rewrite IH|reflexivity].
Qed.

(** When the continuation cannot start on a character of the class, the
    greedy [k+] commits to the longest run. *)
Lemma plus_k_longest (A : Type) (p : char -> bool)
    (kont : nat -> str -> option A) :
  (forall j c s', p c = true -> kont j (c :: s') = None) ->
  forall s i,
    Re.plus_k p i s kont =
    match takewhile p s with
    | [] => None
    | _ :: _ => kont (i + List.length (takewhile p s)) (dropwhile p s)
    end.
Proof.
  intros Hk. induction s as [|c s IH]; intros i; simpl; [reflexivity|].
  destruct (p c) eqn:Hc; [|reflexivity].
  rewrite IH.
  destruct (takewhile p s) as [|d ds] eqn:Ht.
  - assert (Hd : dropwhile p s = s).
    { rewrite <- (takewhile_dropwhile p s) at 2. now rewrite Ht. }
    rewrite Hd. simpl. now rewrite Nat.add_1_r.
  - simpl List.length.
    replace (S i + S (List.length ds)) with (i + S (S (List.length ds))) by lia.
    destruct (kont _ (dropwhile p s)) eqn:E; [reflexivity|].
    destruct s as [|c' s]; [discriminate|].
    simpl in Ht. destruct (p c') eqn:Hc'; [|discriminate].
    now apply Hk.
Qed.

Lemma unit_not_digit (c : char) :
  existsb (N.eqb c) (py "hms") = true -> isdecimal c = false.
Proof.
  simpl. rewrite !orb_true_iff, !N.eqb_eq.
  intros [->|[->|[->|H]]]; try reflexivity. discriminate.
Qed.

Lemma magnitude_not_digit (c : char) :
  existsb (N.eqb c) (py "KMG") = true -> isdecimal c = false.
Proof.
  simpl. rewrite !orb_true_iff, !N.eqb_eq.
  intros [->|[->|[->|H]]]; try reflexivity. discriminate.
Qed.

Lemma existsb_In (c : char) (cs : str) :
  existsb (N.eqb c) cs = true <-> In c cs.
Proof.
  rewrite existsb_exists. split.
  - intros [x [Hx E]]. apply N.eqb_eq in E. now subst.
  - intros H. exists c. split; [exact H|apply N.eqb_refl].
Qed.

(** What [re.match] computes for the duration pattern. *)
Lemma match_time (s : str) :
  Re.match_ time_pattern s =
  match takewhile isdecimal s, dropwhile isdecimal s with
  | _ :: _, u :: tail =>
      if existsb (N.eqb u) (py "hms") then
        match tail with
        | [] => Some [(2, [u]); (1, takewhile isdecimal s)]
        | [c] => if N.eqb c LF then Some [(2, [u]); (1, takewhile isdecimal s)] else None
        | _ => None
        end
      else None
  | _, _ => None
  end.
Proof.
  unfold Re.match_, time_pattern.
  cbn [Re.rmatch Nat.eqb Re.in_class].
  rewrite plus_k_longest.
  - change (Re.in_class Re.Digit) with isdecimal.
    rewrite Nat.sub_0_r, Nat.add_0_l, firstn_takewhile.
    replace (S (List.length (takewhile isdecimal s)) - List.length (takewhile isdecimal s))
      with 1 by lia.
    destruct (takewhile isdecimal s) as [|d ds]; [reflexivity|].
    destruct (dropwhile isdecimal s) as [|u tail]; [reflexivity|].
    reflexivity.
  - intros j c s' Hc.
    destruct (existsb (N.eqb c) (py "hms")) eqn:E; [|reflexivity].
    apply unit_not_digit in E. simpl in Hc. congruence.
Qed.

(** What [re.match] computes for the state-size pattern. *)
Lemma match_state (s : str) :
  Re.match_ state_pattern s =
  match takewhile isdecimal s, dropwhile isdecimal s with
  | _ :: _, [] => Some [(2, []); (1, takewhile isdecimal s)]
  | _ :: _, [u] =>
      if existsb (N.eqb u) (py "KMG") then Some [(2, [u]); (1, takewhile isdecimal s)]
      else if N.eqb u LF then Some [(2, []); (1, takewhile isdecimal s)]
      else None
  | _ :: _, [u; c] =>
      if existsb (N.eqb u) (py "KMG") && N.eqb c LF
      then Some [(2, [u]); (1, takewhile isdecimal s)]
      else None
  | _, _ => None
  end.
Proof.
  unfold Re.match_, state_pattern.
  cbn [Re.rmatch Nat.eqb Re.in_class].
  rewrite plus_k_longest.
  - change (Re.in_class Re.Digit) with isdecimal.
    rewrite Nat.sub_0_r, Nat.add_0_l, firstn_takewhile, Nat.sub_diag.
    replace (S (List.length (takewhile isdecimal s)) - List.length (takewhile isdecimal s))
      with 1 by lia.
    destruct (takewhile isdecimal s) as [|d ds]; [reflexivity|].
    destruct (dropwhile isdecimal s) as [|u [|c [|c' tail]]]; try reflexivity.
    + destruct (existsb (N.eqb u) (py "KMG")); [|reflexivity].
      simpl. destruct (N.eqb c LF); reflexivity.
    + destruct (existsb (N.eqb u) (py "KMG")); reflexivity.
  - intros j c s' Hc.
    destruct (existsb (N.eqb c) (py "KMG")) eqn:E.
    + apply magnitude_not_digit in E. simpl in Hc. congruence.
    + destruct s' as [|c' s']; [|reflexivity].
      destruct (N.eqb c LF) eqn:El; [|reflexivity].
      apply N.eqb_eq in El. subst c. discriminate.
Qed.

(** ** The validators *)

Lemma digits_split (ds : str) (c : char) (tail : str) :
  forallb isdecimal ds = true -> isdecimal c = false ->
  takewhile isdecimal (ds ++ c :: tail) = ds /\
  dropwhile isdecimal (ds ++ c :: tail) = c :: tail.
Proof.
  intros Hds Hc. rewrite takewhile_app, dropwhile_app by exact Hds.
  simpl. rewrite Hc. now rewrite app_nil_r.
Qed.

Lemma digits_alone (ds : str) :
  forallb isdecimal ds = true ->
  takewhile isdecimal ds = ds /\ dropwhile isdecimal ds = [].
Proof.
  intros Hds. rewrite <- (app_nil_r ds) at 1 3.
  rewrite takewhile_app, dropwhile_app by exact Hds.
  simpl. now rewrite app_nil_r.
Qed.

Lemma parse_time_total (s : str) :
  (exists t, parse_time s = Return t) \/
  parse_time s = Raise (ArgumentTypeError (invalid_time_message s)).
Proof.
  unfold parse_time. destruct (Re.match_ time_pattern s); eauto.
Qed.

Lemma parse_time_returns (s t : str) :
  parse_time s = Return t ->
  duration_grammar t /\ (s = t \/ s = t ++ [LF]) /\ numeric_part s = numeric_part t.
Proof.
  unfold parse_time. rewrite match_time.
  pose proof (takewhile_dropwhile isdecimal s) as Hs.
  pose proof (takewhile_all isdecimal s) as Hall.
  pose proof (dropwhile_head isdecimal s) as Hu.
  unfold numeric_part.
  destruct (takewhile isdecimal s) as [|d ds]; [discriminate|].
  destruct (dropwhile isdecimal s) as [|u tail]; [discriminate|].
  destruct (existsb (N.eqb u) (py "hms")) eqn:E; [|discriminate].
  assert (G : duration_grammar ((d :: ds) ++ [u])).
  { exists (d :: ds), u. repeat split; try assumption; try discriminate.
    now apply existsb_In. }
  assert (T : takewhile isdecimal ((d :: ds) ++ [u]) = d :: ds).
  { now apply digits_split. }
  destruct tail as [|c [|c' tail]]; try discriminate.
  - intros H. injection H as <-. cbn [Re.group Nat.eqb].
    repeat split; auto.
  - destruct (N.eqb c LF) eqn:El; [|discriminate].
    apply N.eqb_eq in El. subst c.
    intros H. injection H as <-. cbn [Re.group Nat.eqb].
    repeat split; auto.
    right. rewrite <- Hs. simpl. now rewrite <- app_assoc.
Qed.

Lemma parse_time_accepts (t : str) :
  duration_grammar t ->
  parse_time t = Return t /\ parse_time (t ++ [LF]) = Return t.
Proof.
  intros (ds & u & [Hne Hds] & Hu & ->).
  apply existsb_In in Hu.
  pose proof (unit_not_digit _ Hu) as Hnd.
  unfold parse_time. rewrite !match_time. rewrite <- app_assoc. simpl app.
  destruct (digits_split ds u [] Hds Hnd) as [-> ->].
  destruct (digits_split ds u [LF] Hds Hnd) as [-> ->].
  rewrite Hu. destruct ds as [|d ds]; [congruence|].
  split; reflexivity.
Qed.

Lemma parse_state_total (s : str) :
  (exists t, parse_state s = Return t) \/
  parse_state s = Raise (ArgumentTypeError (invalid_state_message s)).
Proof.
  unfold parse_state. destruct (Re.match_ state_pattern s); eauto.
Qed.

Lemma parse_state_returns (s t : str) :
  parse_state s = Return t ->
  state_grammar t /\ (s = t \/ s = t ++ [LF]) /\ numeric_part s = numeric_part t.
Proof.
  unfold parse_state. rewrite match_state.
  pose proof (takewhile_dropwhile isdecimal s) as Hs.
  pose proof (takewhile_all isdecimal s) as Hall.
  pose proof (dropwhile_head isdecimal s) as Hu.
  unfold numeric_part.
  destruct (takewhile isdecimal s) as [|d ds]; [discriminate|].
  assert (D : digits (d :: ds)) by (split; [discriminate|assumption]).
  assert (G0 : state_grammar (d :: ds)) by (exists (d :: ds); auto).
  assert (T0 : takewhile isdecimal (d :: ds) = d :: ds).
  { now apply digits_alone. }
  destruct (dropwhile isdecimal s) as [|u [|c [|c' tail]]]; try discriminate.
  - intros H. injection H as <-. cbn [Re.group Nat.eqb].
    rewrite app_nil_r in *. repeat split; auto.
  - destruct (existsb (N.eqb u) (py "KMG")) eqn:E.
    + intros H. injection H as <-. cbn [Re.group Nat.eqb].
      repeat split; auto.
      * exists (d :: ds). split; [assumption|]. right. exists u.
        split; [now apply existsb_In|reflexivity].
      * symmetry. now apply (digits_split (d :: ds) u []).
    + destruct (N.eqb u LF) eqn:El; [|discriminate].
      apply N.eqb_eq in El. subst u.
      intros H. injection H as <-. cbn [Re.group Nat.eqb].
      rewrite app_nil_r. repeat split; auto.
  - destruct (existsb (N.eqb u) (py "KMG")) eqn:E; [|discriminate].
    destruct (N.eqb c LF) eqn:El; [|discriminate].
    apply N.eqb_eq in El. subst c.
    intros H. injection H as <-. cbn [Re.group Nat.eqb].
    repeat split.
    + exists (d :: ds). split; [assumption|]. right. exists u.
      split; [now apply existsb_In|reflexivity].
    + right. rewrite <- Hs. simpl. now rewrite <- app_assoc.
    + symmetry. now apply (digits_split (d :: ds) u []).
Qed.

Lemma parse_state_accepts (t : str) :
  state_grammar t ->
  parse_state t = Return t /\ parse_state (t ++ [LF]) = Return t.
Proof.
  intros (ds & [Hne Hds] & [->|(u & Hu & ->)]).
  - unfold parse_state. rewrite !match_state.
    destruct (digits_alone ds Hds) as [-> ->].
    destruct (digits_split ds LF [] Hds eq_refl) as [-> ->].
    destruct ds as [|d ds]; [congruence|].
    simpl. rewrite app_nil_r. split; reflexivity.
  - apply existsb_In in Hu.
    pose proof (magnitude_not_digit _ Hu) as Hnd.
    unfold parse_state. rewrite !match_state. rewrite <- app_assoc. simpl app.
    destruct (digits_split ds u [] Hds Hnd) as [-> ->].
    destruct (digits_split ds u [LF] Hds Hnd) as [-> ->].
    rewrite Hu. destruct ds as [|d ds]; [congruence|].
    split; reflexivity.
Qed.

Lemma duration_grammar_last (t : str) :
  duration_grammar t -> exists body u, t = body ++ [u] /\ In u (py "hms").
Proof. intros (ds & u & _ & Hu & ->). eauto. Qed.

Lemma numeric_part_duration (t : str) :
  duration_grammar t -> digits (numeric_part t).
Proof.
  intros (ds & u & [Hne Hds] & Hu & ->). unfold numeric_part.
  apply existsb_In in Hu. apply unit_not_digit in Hu.
  destruct (digits_split ds u [] Hds Hu) as [-> _]. now split.
Qed.

Lemma numeric_part_state (t : str) :
  state_grammar t -> digits (numeric_part t).
Proof.
  intros (ds & [Hne Hds] & [->|(u & Hu & ->)]); unfold numeric_part.
  - destruct (digits_alone ds Hds) as [-> _]. now split.
  - apply existsb_In in Hu. apply magnitude_not_digit in Hu.
    destruct (digits_split ds u [] Hds Hu) as [-> _]. now split.
Qed.

Lemma newline_not_duration : ~ duration_grammar (py "30m" ++ [LF]).
Proof.
  intros H. apply duration_grammar_last in H as (body & u & E & Hu).
  apply app_inj_tail in E as [_ <-].
  simpl in Hu. intuition discriminate.
Qed.

Lemma newline_not_state : ~ state_grammar (py "500K" ++ [LF]).
Proof.
  intros (ds & [Hne Hds] & [E|(u & Hu & E)]).
  - rewrite <- E in Hds. discriminate.
  - apply app_inj_tail in E as [_ <-].
    simpl in Hu. intuition discriminate.
Qed.

(** C5 does not hold of the code: the duration ["30m\n"], which is not
    [<non-negative integer><unit>], is accepted, and the value returned for
    it, ["30m"], is not the input.  The pattern is anchored at both ends
    and ["30m\n\n"] is rejected with the error that quotes the string and
    states the grammar, but [$] also matches before one final newline. *)
Theorem parse_time_trailing_newline :
  ~ duration_grammar (py "30m" ++ [LF]) /\
  parse_time (py "30m" ++ [LF]) = Return (py "30m") /\
  py "30m" <> py "30m" ++ [LF] /\
  parse_time (py "30m") = Return (py "30m") /\
  parse_time (py "30m" ++ [LF; LF]) =
    Raise (ArgumentTypeError
             (py "Invalid time format: '" ++ (py "30m" ++ [LF; LF]) ++
              py "'. Must be a number followed by 'h', 'm', or 's'.")).
Proof.
  split; [exact newline_not_duration|].
  split; [reflexivity|]. split; [discriminate|]. split; reflexivity.
Qed.

(** The duration validator, on every string: it succeeds exactly on the
    strings [<non-negative integer><unit>], unit in h, m, s, optionally
    followed by one final newline; it then returns the string without that
    newline (so the input itself when there is none); on every other
    string it raises the error whose message quotes the string and states
    the grammar. *)
Lemma parse_time_spec (s : str) :
  (exists t, duration_grammar t /\ (s = t \/ s = t ++ [LF]) /\
             parse_time s = Return t) \/
  ((forall t, duration_grammar t -> s <> t /\ s <> t ++ [LF]) /\
   parse_time s =
     Raise (ArgumentTypeError
              (py "Invalid time format: '" ++ s ++
               py "'. Must be a number followed by 'h', 'm', or 's'."))).
Proof.
  destruct (parse_time_total s) as [[t Ht]|Hfail].
  - left. exists t. apply parse_time_returns in Ht as Hg. tauto.
  - right. split; [|exact Hfail].
    intros t Hg. apply parse_time_accepts in Hg as [H1 H2].
    split; intros ->; congruence.
Qed.

(** C6 does not hold of the code: the state size ["500K\n"], which is not
    [<non-negative integer><magnitude>], is accepted, and the value
    returned for it, ["500K"], is not the input.  The pattern is anchored
    at both ends, ["500K\n\n"] and ["500X"] are rejected, but [$] also
    matches before one final newline. *)
Theorem parse_state_trailing_newline :
  ~ state_grammar (py "500K" ++ [LF]) /\
  parse_state (py "500K" ++ [LF]) = Return (py "500K") /\
  py "500K" <> py "500K" ++ [LF] /\
  parse_state (py "500K") = Return (py "500K") /\
  parse_state (py "500K" ++ [LF; LF]) =
    Raise (ArgumentTypeError (invalid_state_message (py "500K" ++ [LF; LF]))) /\
  parse_state (py "500X") =
    Raise (ArgumentTypeError (invalid_state_message (py "500X"))).
Proof.
  split; [exact newline_not_state|].
  split; [reflexivity|]. split; [discriminate|]. repeat split.
Qed.

(** The state-size validator, on every string: it succeeds exactly on the
    strings [<non-negative integer><magnitude>], magnitude empty or one of
    K, M, G, optionally followed by one final newline; it then returns the
    string without that newline; on every other string it raises the error
    whose message quotes the string and states the grammar. *)
Lemma parse_state_spec (s : str) :
  (exists t, state_grammar t /\ (s = t \/ s = t ++ [LF]) /\
             parse_state s = Return t) \/
  ((forall t, state_grammar t -> s <> t /\ s <> t ++ [LF]) /\
   parse_state s =
     Raise (ArgumentTypeError
              (py "Invalid state format: '" ++ s ++
               py "'. Must be a number optionally followed by 'K', 'M', or 'G'."))).
Proof.
  destruct (parse_state_total s) as [[t Ht]|Hfail].
  - left. exists t. apply parse_state_returns in Ht as Hg. tauto.
  - right. split; [|exact Hfail].
    intros t Hg. apply parse_state_accepts in Hg as [H1 H2].
    split; intros ->; congruence.
Qed.

(** C9, as stated, fails: the duration ["0h"] and the state size ["0"] are
    accepted, and their numeric part is zero. *)
Lemma zero_is_accepted :
  parse_time (py "0h") = Return (py "0h") /\
  int_value (numeric_part (py "0h")) = 0%N /\
  parse_state (py "0") = Return (py "0") /\
  int_value (numeric_part (py "0")) = 0%N.
Proof. repeat split. Qed.

(** C9, amended: every duration and every state size that is accepted has
    as numeric part a non-empty run of decimal digits, the same as in the
    argument given: a non-negative integer, zero included; ["0h"] and ["0"]
    are accepted. *)
Theorem accepted_numeric_part (s t : str) :
  (parse_time s = Return t \/ parse_state s = Return t ->
   digits (numeric_part t) /\ numeric_part s = numeric_part t /\
   (0 <= int_value (numeric_part t))%N) /\
  parse_time (py "0h") = Return (py "0h") /\
  parse_state (py "0") = Return (py "0").
Proof.
  split; [|split; reflexivity].
  intros [H|H].
  - apply parse_time_returns in H as (G & _ & E).
    split; [now apply numeric_part_duration|]. split; [exact E|apply N.le_0_l].
  - apply parse_state_returns in H as (G & _ & E).
    split; [now apply numeric_part_state|]. split; [exact E|apply N.le_0_l].
Qed.

Lemma accepted_numeric_part_witness :
  digits (numeric_part (py "0h")) /\
  numeric_part (py "0h") = numeric_part (py "0h") /\
  (0 <= int_value (numeric_part (py "0h")))%N.
Proof.
  apply (proj1 (accepted_numeric_part (py "0h") (py "0h"))).
  left. reflexivity.
Defined.

(** ** The run lock *)

Lemma dropwhile_stop (p : char -> bool) (s : str) :
  forallb (fun c => negb (p c)) s = true -> dropwhile p s = s.
Proof.
  destruct s as [|c s]; simpl; [reflexivity|].
  intros H. apply andb_true_iff in H as [Hc _].
  apply negb_true_iff in Hc. now rewrite Hc.
Qed.

Lemma forallb_rev (p : char -> bool) (s : str) :
  forallb p s = true -> forallb p (rev s) = true.
Proof.
  rewrite !forallb_forall. intros H c Hc. apply H. now apply in_rev.
Qed.

(** Text without white space is read back and stripped to itself. *)
Lemma strip_clean (h : str) :
  forallb (fun c => negb (isspace c)) h = true ->
  strip (universal_newlines h) = h.
Proof.
  intros H.
  assert (U : universal_newlines h = h).
  { induction h as [|c h IH]; simpl; [reflexivity|].
    simpl in H. apply andb_true_iff in H as [Hc Hh].
    destruct (N.eqb c CR) eqn:E.
    - apply N.eqb_eq in E. subst c. discriminate.
    - now rewrite IH. }
  rewrite U. unfold strip, rstrip, lstrip.
  rewrite (dropwhile_stop isspace (rev h)) by now apply forallb_rev.
  rewrite rev_involutive. now apply dropwhile_stop.
Qed.


Lemma create_lock_file_free (u : str) (w : world) :
  lock_file (fs w) = None ->
  create_lock_file u w =
  (Return tt,
   {| fs := {| lock_file := Some u; dirs := dirs (fs w) |};
      log := log w ++ [EvWrite LOCK_FILE u] |}).
Proof.
  intros H. unfold create_lock_file, bind, lock_exists. now rewrite H.
Qed.

Lemma create_lock_file_held (u h : str) (w : world) :
  lock_file (fs w) = Some h ->
  create_lock_file u w =
  (Raise (RuntimeError (strip (universal_newlines h) ++
                        py " already running benchmark")), w).
Proof.
  intros H. unfold create_lock_file, bind, lock_exists, read_lock.
  rewrite H. cbv beta iota. now rewrite H.
Qed.

Lemma remove_lock_file_free (w : world) :
  lock_file (fs w) = None -> remove_lock_file w = (Return tt, w).
Proof.
  intros H. unfold remove_lock_file, bind, lock_exists. now rewrite H.
Qed.

Lemma remove_lock_file_held (h : str) (w : world) :
  lock_file (fs w) = Some h ->
  remove_lock_file w =
  (Return tt,
   {| fs := {| lock_file := None; dirs := dirs (fs w) |};
      log := log w ++ [EvRemove LOCK_FILE] |}).
Proof.
  intros H. unfold remove_lock_file, bind, lock_exists, remove_lock.
  rewrite H. cbv beta iota. now rewrite H.
Qed.

(** C2, as stated, fails: with the marker [" bob"] on disk the error names
    ["bob"], not the content of the marker. *)
Lemma holder_is_reported_stripped :
  create_lock_file (py "alice")
    {| fs := {| lock_file := Some (py " bob"); dirs := [] |}; log := [] |} =
  (Raise (RuntimeError (py "bob already running benchmark")),
   {| fs := {| lock_file := Some (py " bob"); dirs := [] |}; log := [] |}) /\
  py "bob already running benchmark" <> py " bob" ++ py " already running benchmark".
Proof. split; [reflexivity|discriminate]. Qed.

(** C2, amended: acquiring with identifier [u] when no marker exists
    succeeds and writes a marker whose content is [u], and acquiring again
    then fails; when a marker with content [h] exists the call raises the
    already-running error, which reports [h] as read back in text mode with
    the surrounding white space stripped ([h] itself when [h] holds no
    white space), and leaves the marker, the directories and the log as
    they were. *)
Theorem create_lock_file_spec (u : str) (w : world) :
  match lock_file (fs w) with
  | None =>
      create_lock_file u w =
      (Return tt,
       {| fs := {| lock_file := Some u; dirs := dirs (fs w) |};
          log := log w ++ [EvWrite LOCK_FILE u] |}) /\
      forall u',
        create_lock_file u' (snd (create_lock_file u w)) =
        (Raise (RuntimeError (strip (universal_newlines u) ++
                              py " already running benchmark")),
         snd (create_lock_file u w))
  | Some h =>
      create_lock_file u w =
      (Raise (RuntimeError (strip (universal_newlines h) ++
                            py " already running benchmark")), w) /\
      (forallb (fun c => negb (isspace c)) h = true ->
       create_lock_file u w =
       (Raise (RuntimeError (h ++ py " already running benchmark")), w))
  end.
Proof.
  destruct (lock_file (fs w)) as [h|] eqn:E.
  - rewrite (create_lock_file_held u w E). split; [reflexivity|].
    intros H. now rewrite strip_clean.
  - rewrite (create_lock_file_free u w E). split; [reflexivity|].
    intros u'. now apply create_lock_file_held.
Qed.

Lemma create_lock_file_witness :
  create_lock_file (py "alice")
    {| fs := {| lock_file := Some (py "bob"); dirs := [] |}; log := [] |} =
  (Raise (RuntimeError (py "bob" ++ py " already running benchmark")),
   {| fs := {| lock_file := Some (py "bob"); dirs := [] |}; log := [] |}).
Proof.
  apply (create_lock_file_spec (py "alice")
           {| fs := {| lock_file := Some (py "bob"); dirs := [] |}; log := [] |}).
  reflexivity.
Defined.

(** C7: releasing the lock never raises; a marker that exists is removed
    by one [os.remove]; without a marker nothing happens at all; and
    releasing twice leaves the world that releasing once leaves. *)
Theorem remove_lock_file_spec (w : world) :
  fst (remove_lock_file w) = Return tt /\
  lock_file (fs (snd (remove_lock_file w))) = None /\
  dirs (fs (snd (remove_lock_file w))) = dirs (fs w) /\
  match lock_file (fs w) with
  | Some _ => log (snd (remove_lock_file w)) = log w ++ [EvRemove LOCK_FILE]
  | None => remove_lock_file w = (Return tt, w)
  end /\
  remove_lock_file (snd (remove_lock_file w)) =
  (Return tt, snd (remove_lock_file w)).
Proof.
  destruct (lock_file (fs w)) as [h|] eqn:E.
  - rewrite (remove_lock_file_held w E). cbn [fst snd fs log lock_file dirs].
    repeat split.
  - rewrite (remove_lock_file_free w E). cbn [fst snd].
    repeat split; auto. now apply remove_lock_file_free.
Qed.

(** ** External commands *)

Lemma run_command_eq (os : environment) (command : str) (cwd : option str)
    (w : world) :
  cwd_exists cwd (fs w) = true ->
  run_command os command cwd w =
  (if (returncode (fst (shell os command cwd (fs w))) =? 0)%Z
   then Return (strip (stdout (fst (shell os command cwd (fs w)))))
   else Raise (RuntimeError
                 (failure_message command (fst (shell os command cwd (fs w))))),
   {| fs := snd (shell os command cwd (fs w));
      log := log w ++ [EvExec command cwd (fst (shell os command cwd (fs w)))] |}).
Proof.
  intros H. unfold run_command, bind, subprocess_run, spawn.
  assert (E : match cwd with
              | Some d =>
                  if isdir d (fs w)
                  then (let (result, f) := shell os command cwd (fs w) in
                        (Return result,
                         emit (EvExec command cwd result) {| fs := f; log := log w |}))
                  else (Raise (FileNotFoundError d), w)
              | None =>
                  let (result, f) := shell os command cwd (fs w) in
                  (Return result,
                   emit (EvExec command cwd result) {| fs := f; log := log w |})
              end =
              (let (result, f) := shell os command cwd (fs w) in
               (Return result,
                emit (EvExec command cwd result) {| fs := f; log := log w |}))).
  { destruct cwd as [d|]; [|reflexivity]. simpl in H. now rewrite H. }
  rewrite E. destruct (shell os command cwd (fs w)) as [result f].
  simpl. destruct (returncode result =? 0)%Z; reflexivity.
Qed.

Lemma run_command_missing (os : environment) (command d : str) (w : world) :
  isdir d (fs w) = false ->
  run_command os command (Some d) w = (Raise (FileNotFoundError d), w).
Proof.
  intros H. unfold run_command, bind, subprocess_run. now rewrite H.
Qed.

(** The benchmark is started by one external command, made of the driver
    script and the seven fields, one blank before each, and run in the
    repository directory. *)
Lemma run_benchmark_event (os : environment) (repo_dir : str)
    (args : namespace) (w : world) :
  isdir repo_dir (fs w) = true ->
  let command :=
    benchmark_command (time args) (users args) (state args) (shards args)
      (nodes args) (rump_up args) (user args) in
  let w' :=
    snd (run_benchmark os repo_dir (time args) (users args) (state args)
           (shards args) (nodes args) (rump_up args) (user args) w) in
  command =
    command_line (py "./scripts/start_benchmark.sh") (benchmark_arguments args) /\
  log w' =
    log w ++ [EvExec command (Some repo_dir)
                (fst (shell os command (Some repo_dir) (fs w)))] /\
  fs w' = snd (shell os command (Some repo_dir) (fs w)).
Proof.
  intros Hdir. cbv zeta. split; [|split].
  - unfold benchmark_command, command_line, benchmark_arguments.
    change (py "./scripts/start_benchmark.sh ")
      with (py "./scripts/start_benchmark.sh" ++ [SPACE]).
    change (py " ") with [SPACE]. simpl List.concat.
    rewrite <- !app_assoc. simpl. now rewrite app_nil_r.
  - unfold run_benchmark, bind. rewrite run_command_eq by exact Hdir.
    destruct (_ =? _)%Z; reflexivity.
  - unfold run_benchmark, bind. rewrite run_command_eq by exact Hdir.
    destruct (_ =? _)%Z; reflexivity.
Qed.

(** ** The command line *)

Lemma store_raises (int : str -> option Z) (s : seen) (o : flag) (v : str)
    (e : exn) :
  store int s o v = Raise e -> e = SystemExit 2.
Proof.
  destruct o; simpl; unfold convert_str, convert_int;
    try destruct (parse_time v); try destruct (parse_state v);
    try destruct (int v); congruence.
Qed.

(** A value that its converter rejects ends the parser. *)
Lemma rejected_value_consume (int : str -> option Z) (argv : list (flag * str)) :
  Exists (fun ov => ~ accepted_value int ov) argv ->
  forall s, consume int argv s = Raise (SystemExit 2).
Proof.
  induction 1 as [[o v] rest Hbad|[o v] rest _ IH]; intros s; cbn [consume].
  - assert (E : store int s o v = Raise (SystemExit 2)).
    { unfold accepted_value in Hbad. cbn [fst snd] in Hbad.
      destruct o; cbn [store]; unfold convert_str, convert_int;
        try (destruct (parse_time v) as [t|]; [exfalso; eauto|reflexivity]);
        try (destruct (parse_state v) as [t|]; [exfalso; eauto|reflexivity]);
        try (destruct (int v) as [n|]; [exfalso; eauto|reflexivity]);
        exfalso; exact (Hbad I). }
    now rewrite E.
  - destruct (store int s o v) as [s'|e] eqn:Es.
    + apply IH.
    + apply store_raises in Es. now subst.
Qed.

(** ** The orchestrator *)

(** C10: when the lock is already held, [main] prints the error, returns
    normally, and its [finally] block has removed the marker of the other
    holder; the next acquisition therefore succeeds. *)
Theorem already_running_removes_marker (os : environment) (args : namespace)
    (w : world) (h : str) :
  lock_file (fs w) = Some h ->
  exists w',
    main_run os args w = (Return tt, w') /\
    lock_file (fs w') = None /\
    dirs (fs w') = dirs (fs w) /\
    log w' =
      log w ++ [EvPrint (strip (universal_newlines h) ++
                         py " already running benchmark");
                EvRemove LOCK_FILE] /\
    forall u,
      create_lock_file u w' =
      (Return tt,
       {| fs := {| lock_file := Some u; dirs := dirs (fs w) |};
          log := log w' ++ [EvWrite LOCK_FILE u] |}).
Proof.
  intros Hh. unfold main_run, main_try. unfold bind at 1.
  rewrite (create_lock_file_held (user args) w Hh).
  unfold print, emit, main_finally. unfold bind at 1.
  rewrite (@remove_lock_file_held h) by exact Hh.
  unfold ret. cbn [fs log lock_file dirs].
  eexists. split; [reflexivity|]. cbn [fs log lock_file dirs].
  split; [reflexivity|]. split; [reflexivity|].
  split; [now rewrite <- app_assoc|].
  intros u. now rewrite create_lock_file_free.
Qed.

Lemma already_running_witness :
  exists w',
    main_run (sample_os nothing_fails)
      {| time := py "1h"; users := 100; state := py "1G"; shards := 1;
         nodes := 1; rump_up := 5; user := py "alice"; commit := None |}
      {| fs := {| lock_file := Some (py "bob"); dirs := [] |}; log := [] |} =
    (Return tt, w') /\
    lock_file (fs w') = None.
Proof.
  destruct (@already_running_removes_marker (sample_os nothing_fails)
              {| time := py "1h"; users := 100; state := py "1G"; shards := 1;
                 nodes := 1; rump_up := 5; user := py "alice"; commit := None |}
              {| fs := {| lock_file := Some (py "bob"); dirs := [] |}; log := [] |}
              (py "bob") eq_refl) as (w' & H1 & H2 & _).
  exists w'. split; assumption.
Defined.


(** ** The sample operating system *)

Lemma removeprefix_app (a b : str) : removeprefix a (a ++ b) = Some b.
Proof.
  induction a as [|x a IH]; simpl; [reflexivity|].
  now rewrite N.eqb_refl.
Qed.

Lemma sample_shell_clone (failing : str -> bool) (repo_dir : str) (f : filesystem) :
  failing (clone_command repo_dir) = false ->
  sample_shell failing (clone_command repo_dir) None f =
  ({| returncode := 0; stdout := []; stderr := [] |},
   {| lock_file := lock_file f; dirs := repo_dir :: dirs f |}).
Proof.
  intros H. unfold sample_shell. rewrite H. unfold clone_command.
  rewrite !app_assoc, removeprefix_app. reflexivity.
Qed.

Lemma sample_os_well_behaved (failing : str -> bool) :
  well_behaved (sample_os failing).
Proof.
  split.
  - intros command cwd f. simpl. unfold sample_shell.
    destruct (failing command); [reflexivity|].
    destruct (removeprefix _ command); [reflexivity|].
    destruct (str_eqb command _); reflexivity.
  - intros command cwd f p Hp. simpl. unfold sample_shell.
    destruct (failing command); [exact Hp|].
    destruct (removeprefix _ command); [now right|].
    destruct (str_eqb command _); exact Hp.
  - intros repo_dir f. simpl shell.
    destruct (failing (clone_command repo_dir)) eqn:E.
    + unfold sample_shell. rewrite E. discriminate.
    + rewrite sample_shell_clone by exact E. intros _. now left.
Qed.

(** ** Paths *)

Lemma head_of_app (a name : str) :
  forallb (fun c => negb (N.eqb c SLASH)) name = true ->
  Posixpath.head_of (a ++ SLASH :: name) = a ++ [SLASH].
Proof.
  intros H. unfold Posixpath.head_of.
  rewrite rev_app_distr. cbn [rev]. rewrite <- app_assoc.
  rewrite dropwhile_app by now apply forallb_rev.
  cbn [app dropwhile]. rewrite N.eqb_refl. cbn [negb rev].
  now rewrite rev_involutive.
Qed.

Lemma dirname_join_last (body : str) (x : char) :
  N.eqb x SLASH = false ->
  Posixpath.dirname ((body ++ [x]) ++ SLASH :: py "nearcore") = body ++ [x].
Proof.
  intros H. unfold Posixpath.dirname.
  rewrite head_of_app by reflexivity.
  assert (F : forallb (N.eqb SLASH) ((body ++ [x]) ++ [SLASH]) = false).
  { rewrite !forallb_app. cbn [forallb]. rewrite (N.eqb_sym SLASH x), H.
    now rewrite andb_false_r. }
  rewrite F.
  destruct ((body ++ [x]) ++ [SLASH]) as [|y l] eqn:E.
  - destruct body; discriminate.
  - rewrite <- E. cbn [andb negb].
    rewrite !rev_app_distr. cbn [rev app dropwhile].
    rewrite N.eqb_refl, (N.eqb_sym SLASH x), H.
    cbn [rev]. now rewrite rev_involutive.
Qed.

Lemma dirname_join (d : str) :
  Posixpath.endswith_slash d = false ->
  Posixpath.dirname (Posixpath.join d (py "nearcore")) = d.
Proof.
  intros H. unfold Posixpath.join. simpl startswith. cbv iota.
  rewrite H, orb_false_r.
  destruct d as [|c d]; [reflexivity|].
  cbv iota. unfold Posixpath.endswith_slash in H.
  assert (E : c :: d = rev (rev (c :: d))) by now rewrite rev_involutive.
  destruct (rev (c :: d)) as [|x rd].
  - discriminate.
  - rewrite E. simpl rev. apply dirname_join_last. exact H.
Qed.

(** ** Workspace preparation *)

Lemma isdir_In (p : str) (f : filesystem) : isdir p f = true <-> In p (dirs f).
Proof.
  unfold isdir. rewrite existsb_exists. split.
  - intros [x [Hx E]]. apply str_eqb_eq in E. now subst.
  - intros H. exists p. split; [exact H|apply str_eqb_refl].
Qed.

Lemma rmtree_removes (d : str) (l : list str) (p : str) :
  In p (filter (fun p => negb (under d p)) l) -> under d p = false.
Proof.
  intros H. apply filter_In in H as [_ H]. now apply negb_true_iff.
Qed.

(** One external command, on a well-behaved system. *)
Lemma run_command_cases (os : environment) (command : str)
    (cwd : option str) (w : world) :
  well_behaved os ->
  cwd_exists cwd (fs w) = true ->
  exists result f,
    shell os command cwd (fs w) = (result, f) /\
    lock_file f = lock_file (fs w) /\
    (forall p, In p (dirs (fs w)) -> In p (dirs f)) /\
    ((returncode result = 0%Z /\
      run_command os command cwd w =
      (Return (strip (stdout result)),
       {| fs := f; log := log w ++ [EvExec command cwd result] |})) \/
     (returncode result <> 0%Z /\
      run_command os command cwd w =
      (Raise (RuntimeError (failure_message command result)),
       {| fs := f; log := log w ++ [EvExec command cwd result] |}))).
Proof.
  intros WB Hcwd. rewrite run_command_eq by exact Hcwd.
  pose proof (keeps_lock WB command cwd (fs w)) as L.
  pose proof (keeps_dirs WB command cwd (fs w)) as D.
  destruct (shell os command cwd (fs w)) as [result f]. simpl in *.
  exists result, f. repeat split; try assumption.
  destruct (Z.eqb_spec (returncode result) 0); [left|right]; now split.
Qed.

(** The handler of [checkout_repo]. *)
Lemma handler_removes (d msg : str) (w : world) :
  In d (dirs (fs w)) ->
  (rmtree d ;; raise (A := str) (RuntimeError msg)) w =
  (Raise (RuntimeError msg),
   {| fs := {| lock_file := lock_file (fs w);
               dirs := filter (fun p => negb (under d p)) (dirs (fs w)) |};
      log := log w ++ [EvRmtree d] |}).
Proof.
  intros H. apply isdir_In in H. unfold bind, rmtree. now rewrite H.
Qed.

Lemma execute_step (os : environment) (command : str) (cwd : option str)
    (rest : list (str * option str)) (f f1 f2 : filesystem)
    (result : completed) (evs : list event) :
  shell os command cwd f = (result, f1) ->
  execute os rest f1 = (evs, f2) ->
  execute os ((command, cwd) :: rest) f = (EvExec command cwd result :: evs, f2).
Proof. intros H1 H2. cbn [execute]. now rewrite H1, H2. Qed.

Lemma execute_commands (os : environment) (commands : list (str * option str))
    (f f' : filesystem) (evs : list event) :
  execute os commands f = (evs, f') -> map command_of evs = commands.
Proof.
  revert f f' evs. induction commands as [|[c cwd] rest IH]; intros f f' evs H.
  - injection H as <- _. reflexivity.
  - cbn [execute] in H. destruct (shell os c cwd f) as [result f1].
    destruct (execute os rest f1) as [evs1 f2] eqn:E.
    injection H as <- _. cbn [map command_of]. now rewrite (IH _ _ _ E).
Qed.

(** One more command of a sequence: its working directory exists, and it
    returns or raises. *)
Ltac run_step WB res f S L D R E :=
  match goal with
  | |- context [run_command ?os ?c ?cwd ?w] =>
      let Hcwd := fresh "Hcwd" in
      assert (Hcwd : cwd_exists cwd (fs w) = true);
      [ cbn [cwd_exists fs]; first [reflexivity | apply isdir_In; auto 10]
      | destruct (@run_command_cases os c cwd w WB Hcwd)
          as (res & f & S & L & D & [[R E]|[R E]]);
        clear Hcwd; rewrite E; cbv beta iota; cbn [fs log lock_file dirs] in * ]
  end.

Ltac executed :=
  repeat (eapply execute_step; [eassumption|]); reflexivity.

Ltac failed_at pre resolved :=
  do 3 eexists; split; [reflexivity|]; cbn [fs log lock_file dirs];
  split; [rewrite <- ?app_assoc; reflexivity|];
  split; [congruence|]; split; [auto 10|];
  right; exists pre; do 3 eexists; exists resolved;
  split; [reflexivity|];
  split; [repeat (apply Forall_cons; [assumption|]); apply Forall_nil|];
  split; [eassumption|]; split; [reflexivity|]; split; [reflexivity|];
  executed.

Lemma checkout_try_cases (os : environment) (d repo : str)
    (commit : option str) (w : world) :
  well_behaved os ->
  In d (dirs (fs w)) ->
  exists r w' evs,
    checkout_try os repo commit w = (r, w') /\
    log w' = log w ++ evs /\
    lock_file (fs w') = lock_file (fs w) /\
    In d (dirs (fs w')) /\
    ((exists c,
        r = Return c /\ checkout_ok_log repo commit c evs /\
        In repo (dirs (fs w')) /\
        execute os (checkout_commands repo commit c) (fs w) = (evs, fs w')) \/
     (exists pre command cwd result resolved,
        r = Raise (RuntimeError (failure_message command result)) /\
        Forall exec_ok pre /\ returncode result <> 0%Z /\
        evs = pre ++ [EvExec command cwd result] /\
        firstn (List.length pre + 1) (checkout_commands repo commit resolved) =
        map command_of pre ++ [(command, cwd)] /\
        execute os (map command_of pre ++ [(command, cwd)]) (fs w) =
        (evs, fs w'))).
Proof.
  intros WB Hd. unfold checkout_try, bind.
  run_step WB r0 f0 S0 L0 D0 R0 E0; [|failed_at (@nil event) (@nil char)].
  set (cfg := EvExec (py "git config --global http.postBuffer 524288000") None r0) in *.
  assert (OK0 : exec_ok cfg) by exact R0.
  pose proof (clone_creates WB repo f0) as C.
  run_step WB r1 f1 S1 L1 D1 R1 E1; [|failed_at [cfg] (@nil char)].
  rewrite S1 in C. cbn [fst snd] in C. specialize (C R1).
  set (cl := EvExec (clone_command repo) None r1) in *.
  assert (OK1 : exec_ok cl) by exact R1.
  run_step WB r2 f2 S2 L2 D2 R2 E2; [|failed_at [cfg; cl] (@nil char)].
  set (fe := EvExec (py "git fetch") (Some repo) r2) in *.
  assert (OK2 : exec_ok fe) by exact R2.
  destruct commit as [[|x xs]|].
  - run_step WB r3 f3 S3 L3 D3 R3 E3; [|failed_at [cfg; cl; fe] (@nil char)].
    set (rp := EvExec (py "git rev-parse origin/master") (Some repo) r3) in *.
    assert (OK3 : exec_ok rp) by exact R3.
    run_step WB r4 f4 S4 L4 D4 R4 E4;
      [|failed_at [cfg; cl; fe; rp] (strip (stdout r3))].
    do 3 eexists. split; [reflexivity|]. cbn [fs log lock_file dirs].
    split; [rewrite <- ?app_assoc; reflexivity|].
    split; [congruence|]. split; [auto 10|]. left.
    eexists. split; [reflexivity|]. split; [|split; [auto 10|executed]].
    exists r0, r1, r2, r4. repeat split; try assumption.
    exists r3. repeat split; assumption.
  - unfold ret at 1. cbv beta iota.
    run_step WB r4 f4 S4 L4 D4 R4 E4; [|failed_at [cfg; cl; fe] (x :: xs)].
    do 3 eexists. split; [reflexivity|]. cbn [fs log lock_file dirs].
    split; [rewrite <- ?app_assoc; reflexivity|].
    split; [congruence|]. split; [auto 10|]. left.
    eexists. split; [reflexivity|]. split; [|split; [auto 10|executed]].
    exists r0, r1, r2, r4. repeat split; assumption.
  - run_step WB r3 f3 S3 L3 D3 R3 E3; [|failed_at [cfg; cl; fe] (@nil char)].
    set (rp := EvExec (py "git rev-parse origin/master") (Some repo) r3) in *.
    assert (OK3 : exec_ok rp) by exact R3.
    run_step WB r4 f4 S4 L4 D4 R4 E4;
      [|failed_at [cfg; cl; fe; rp] (strip (stdout r3))].
    do 3 eexists. split; [reflexivity|]. cbn [fs log lock_file dirs].
    split; [rewrite <- ?app_assoc; reflexivity|].
    split; [congruence|]. split; [auto 10|]. left.
    eexists. split; [reflexivity|]. split; [|split; [auto 10|executed]].
    exists r0, r1, r2, r4. repeat split; try assumption.
    exists r3. repeat split; assumption.
Qed.

Lemma checkout_repo_unfold (os : environment) (commit : option str) :
  checkout_repo os commit =
  (temp_dir <- mkdtemp os ;;
   commit <-
     try_except_RuntimeError
       (checkout_try os (Posixpath.join temp_dir (py "nearcore")) commit)
       (fun e => rmtree temp_dir ;; raise (RuntimeError e)) ;;
   ret (Posixpath.join temp_dir (py "nearcore"), commit)).
Proof. reflexivity. Qed.

Lemma checkout_repo_cases (os : environment) (commit : option str) (w : world) :
  well_behaved os ->
  isdir (mkdtemp_name os (fs w)) (fs w) = false ->
  exists r w' evs,
    checkout_repo os commit w = (r, w') /\
    log w' = log w ++ EvMkdtemp (mkdtemp_name os (fs w)) :: evs /\
    lock_file (fs w') = lock_file (fs w) /\
    ((exists c,
        r = Return (Posixpath.join (mkdtemp_name os (fs w)) (py "nearcore"), c) /\
        checkout_ok_log (Posixpath.join (mkdtemp_name os (fs w)) (py "nearcore"))
          commit c evs /\
        In (mkdtemp_name os (fs w)) (dirs (fs w')) /\
        In (Posixpath.join (mkdtemp_name os (fs w)) (py "nearcore")) (dirs (fs w')) /\
        execute os
          (checkout_commands (Posixpath.join (mkdtemp_name os (fs w)) (py "nearcore"))
             commit c)
          {| lock_file := lock_file (fs w);
             dirs := mkdtemp_name os (fs w) :: dirs (fs w) |} = (evs, fs w')) \/
     (exists msg ran f,
        r = Raise (RuntimeError msg) /\
        checkout_failed_log (mkdtemp_name os (fs w))
          (Posixpath.join (mkdtemp_name os (fs w)) (py "nearcore")) commit msg evs /\
        (forall p, In p (dirs (fs w')) -> under (mkdtemp_name os (fs w)) p = false) /\
        evs = ran ++ [EvRmtree (mkdtemp_name os (fs w))] /\
        execute os (map command_of ran)
          {| lock_file := lock_file (fs w);
             dirs := mkdtemp_name os (fs w) :: dirs (fs w) |} = (ran, f) /\
        fs w' =
          {| lock_file := lock_file f;
             dirs := filter (fun p => negb (under (mkdtemp_name os (fs w)) p))
                       (dirs f) |})).
Proof.
  intros WB Hfresh.
  set (d := mkdtemp_name os (fs w)) in *.
  set (repo := Posixpath.join d (py "nearcore")).
  rewrite checkout_repo_unfold. unfold bind at 1. unfold mkdtemp.
  fold d. rewrite Hfresh. fold repo. unfold emit. cbn [fs log].
  unfold bind at 1. unfold try_except_RuntimeError.
  destruct (@checkout_try_cases os d repo commit
              {| fs := {| lock_file := lock_file (fs w); dirs := d :: dirs (fs w) |};
                 log := log w ++ [EvMkdtemp d] |} WB)
    as (r & w' & evs & E & Hlog & Hlock & Hd & [(c & -> & Hok & Hrepo & Hex)|
        (pre & command & cwd & result & resolved & -> & Hpre & Hrc & -> & Hsteps & Hex)]).
  { now left. }
  - rewrite E. unfold ret. cbn [fs log lock_file dirs] in *.
    exists (Return (repo, c)), w', evs. split; [reflexivity|].
    split; [rewrite Hlog, <- app_assoc; reflexivity|].
    split; [exact Hlock|]. left. exists c. auto 10.
  - rewrite E. rewrite handler_removes by exact Hd.
    cbn [fs log lock_file dirs] in *.
    do 3 eexists. split; [reflexivity|]. cbn [fs log lock_file dirs].
    split; [rewrite Hlog, <- !app_assoc; reflexivity|].
    split; [exact Hlock|]. right.
    exists (failure_message command result), (pre ++ [EvExec command cwd result]),
      (fs w').
    split; [reflexivity|]. split.
    { exists pre, command, cwd, result, resolved. repeat split; auto. }
    split; [apply rmtree_removes|].
    split; [now rewrite <- app_assoc|].
    split; [|reflexivity].
    rewrite map_app. exact Hex.
Qed.


(** C3: on a well-behaved system, when [mkdtemp] draws a name that is
    free, [checkout_repo] creates that directory and then runs, one after
    the other and each from the file system the one before has left, the
    configuration, the clone into the [nearcore] subdirectory, the fetch,
    the resolution of [origin/master] when no commit was given, and the
    checkout of the commit.  The events logged are those of the operating
    system on these very commands.  When every command exits with status
    0, the repository path is returned with the commit, which is the one
    given or the output of the resolution, and the file system is the one
    the last command has left, holding the temporary directory and the
    repository.  Otherwise the run stops at the first command whose
    status is not 0: no later command is run, the whole temporary
    directory is removed from the file system that command has left, and
    the error of that command is raised. *)
Theorem checkout_repo_spec (os : environment) (commit : option str) (w : world) :
  well_behaved os ->
  isdir (mkdtemp_name os (fs w)) (fs w) = false ->
  exists r w' evs,
    checkout_repo os commit w = (r, w') /\
    log w' = log w ++ EvMkdtemp (mkdtemp_name os (fs w)) :: evs /\
    ((exists c,
        r = Return (Posixpath.join (mkdtemp_name os (fs w)) (py "nearcore"), c) /\
        checkout_ok_log (Posixpath.join (mkdtemp_name os (fs w)) (py "nearcore"))
          commit c evs /\
        In (mkdtemp_name os (fs w)) (dirs (fs w')) /\
        In (Posixpath.join (mkdtemp_name os (fs w)) (py "nearcore")) (dirs (fs w')) /\
        execute os
          (checkout_commands (Posixpath.join (mkdtemp_name os (fs w)) (py "nearcore"))
             commit c)
          {| lock_file := lock_file (fs w);
             dirs := mkdtemp_name os (fs w) :: dirs (fs w) |} = (evs, fs w')) \/
     (exists msg ran f,
        r = Raise (RuntimeError msg) /\
        checkout_failed_log (mkdtemp_name os (fs w))
          (Posixpath.join (mkdtemp_name os (fs w)) (py "nearcore")) commit msg evs /\
        (forall p, In p (dirs (fs w')) -> under (mkdtemp_name os (fs w)) p = false) /\
        evs = ran ++ [EvRmtree (mkdtemp_name os (fs w))] /\
        execute os (map command_of ran)
          {| lock_file := lock_file (fs w);
             dirs := mkdtemp_name os (fs w) :: dirs (fs w) |} = (ran, f) /\
        fs w' =
          {| lock_file := lock_file f;
             dirs := filter (fun p => negb (under (mkdtemp_name os (fs w)) p))
                       (dirs f) |})).
Proof.
  intros WB Hfresh.
  destruct (checkout_repo_cases commit w WB Hfresh)
    as (r & w' & evs & E & Hlog & _ & H).
  exists r, w', evs. auto.
Qed.

Lemma checkout_repo_witness :
  exists r w' evs,
    checkout_repo (sample_os nothing_fails) None empty_world = (r, w') /\
    log w' = log empty_world ++ EvMkdtemp (py "/tmp/tmpk3v9x2q1") :: evs /\
    ((exists c,
        r = Return (Posixpath.join (py "/tmp/tmpk3v9x2q1") (py "nearcore"), c) /\
        checkout_ok_log (Posixpath.join (py "/tmp/tmpk3v9x2q1") (py "nearcore"))
          None c evs /\
        In (py "/tmp/tmpk3v9x2q1") (dirs (fs w')) /\
        In (Posixpath.join (py "/tmp/tmpk3v9x2q1") (py "nearcore")) (dirs (fs w')) /\
        execute (sample_os nothing_fails)
          (checkout_commands (Posixpath.join (py "/tmp/tmpk3v9x2q1") (py "nearcore"))
             None c)
          {| lock_file := None; dirs := [py "/tmp/tmpk3v9x2q1"] |} = (evs, fs w')) \/
     (exists msg ran f,
        r = Raise (RuntimeError msg) /\
        checkout_failed_log (py "/tmp/tmpk3v9x2q1")
          (Posixpath.join (py "/tmp/tmpk3v9x2q1") (py "nearcore")) None msg evs /\
        (forall p, In p (dirs (fs w')) -> under (py "/tmp/tmpk3v9x2q1") p = false) /\
        evs = ran ++ [EvRmtree (py "/tmp/tmpk3v9x2q1")] /\
        execute (sample_os nothing_fails) (map command_of ran)
          {| lock_file := None; dirs := [py "/tmp/tmpk3v9x2q1"] |} = (ran, f) /\
        fs w' =
          {| lock_file := lock_file f;
             dirs := filter (fun p => negb (under (py "/tmp/tmpk3v9x2q1") p))
                       (dirs f) |})).
Proof.
  apply (@checkout_repo_spec (sample_os nothing_fails) None empty_world).
  - apply sample_os_well_behaved.
  - reflexivity.
Defined.

(** ** Cleanup *)




Lemma finally_with_workspace (d u : str) (w : world) :
  lock_file (fs w) = Some u ->
  Posixpath.endswith_slash d = false ->
  In d (dirs (fs w)) ->
  In (Posixpath.join d (py "nearcore")) (dirs (fs w)) ->
  main_finally (Some (Posixpath.join d (py "nearcore"))) w =
  (Return tt,
   {| fs := {| lock_file := None;
               dirs := filter (fun p => negb (under d p)) (dirs (fs w)) |};
      log := log w ++ [EvRemove LOCK_FILE; EvRmtree d] |}).
Proof.
  intros Hu Hshape Hd Hrepo.
  unfold main_finally. unfold bind at 1.
  rewrite (remove_lock_file_held w Hu).
  unfold bind, path_exists. cbn [fs log].
  apply isdir_In in Hd, Hrepo. unfold isdir in *. cbn [dirs].
  rewrite Hrepo, dirname_join by exact Hshape.
  unfold rmtree, emit, isdir. cbn [fs log dirs lock_file]. rewrite Hd.
  now rewrite <- app_assoc.
Qed.

Lemma finally_without_workspace (u : str) (w : world) :
  lock_file (fs w) = Some u ->
  main_finally None w =
  (Return tt,
   {| fs := {| lock_file := None; dirs := dirs (fs w) |};
      log := log w ++ [EvRemove LOCK_FILE] |}).
Proof.
  intros Hu. unfold main_finally. unfold bind at 1.
  now rewrite (remove_lock_file_held w Hu).
Qed.

Ltac list_eq :=
  repeat first [rewrite <- app_assoc | progress cbn [app]]; reflexivity.






(** ** Sample runs *)

Example parse_time_30m : parse_time (py "30m") = Return (py "30m").
Proof. reflexivity. Qed.

(** [\d] is any Unicode decimal digit: here ARABIC-INDIC DIGIT THREE. *)
Example parse_time_arabic_indic :
  parse_time [1635%N; 104%N] = Return [1635%N; 104%N].
Proof. reflexivity. Qed.

Example parse_time_45 :
  parse_time (py "45") =
  Raise (ArgumentTypeError
           (py "Invalid time format: '45'. Must be a number followed by 'h', 'm', or 's'.")).
Proof. reflexivity. Qed.

Example parse_time_2d :
  parse_time (py "2d") = Raise (ArgumentTypeError (invalid_time_message (py "2d"))).
Proof. reflexivity. Qed.

Example parse_state_samples :
  parse_state (py "1000") = Return (py "1000") /\
  parse_state (py "500K") = Return (py "500K") /\
  parse_state (py "200M") = Return (py "200M") /\
  parse_state (py "1G") = Return (py "1G").
Proof. repeat split. Qed.

Example parse_args_scenario :
  parse_args ascii_int sample_argv = Return sample_args.
Proof. reflexivity. Qed.

(** The scenario of the specification: the benchmark is started with the
    arguments [2h 50 2G 4 2 10 alice] in the repository directory, after
    the checkout of [abc123]. *)
Example scenario_benchmark_event :
  firstn 3 (skipn 12 (log (snd (main (sample_os nothing_fails) ascii_int
                                   sample_argv empty_world)))) =
  [EvExec (py "git checkout abc123") (Some (py "/tmp/tmpk3v9x2q1/nearcore"))
     {| returncode := 0; stdout := []; stderr := [] |};
   EvPrint (py "Using commit: abc123");
   EvExec (py "./scripts/start_benchmark.sh 2h 50 2G 4 2 10 alice")
     (Some (py "/tmp/tmpk3v9x2q1/nearcore"))
     {| returncode := 0; stdout := []; stderr := [] |}].
Proof. vm_compute. reflexivity. Qed.

(** A failing checkout: the temporary directory is removed by
    [checkout_repo], then the error is printed and the lock released. *)
Example failing_fetch_run :
  fst (main_run (sample_os (str_eqb (py "git fetch"))) sample_args empty_world) =
    Return tt /\
  fs (snd (main_run (sample_os (str_eqb (py "git fetch"))) sample_args empty_world)) =
    {| lock_file := None; dirs := [] |} /\
  skipn 12 (log (snd (main_run (sample_os (str_eqb (py "git fetch"))) sample_args
                        empty_world))) =
    [EvRmtree (py "/tmp/tmpk3v9x2q1");
     EvPrint (py "Command 'git fetch' failed with error: fatal: failed");
     EvRemove LOCK_FILE].
Proof. vm_compute. repeat split. Qed.

(** A clone that exits with status 0 without creating the repository:
    [git fetch] cannot be started there, the [FileNotFoundError] is not a
    [RuntimeError], so [checkout_repo] does not remove the temporary
    directory and [main] does not print the error; the lock is released
    and the error escapes. *)
Example clone_without_repository_run :
  main_run idle_os sample_args empty_world =
  (Raise (FileNotFoundError (py "/tmp/tmpk3v9x2q1/nearcore")),
   {| fs := {| lock_file := None; dirs := [py "/tmp/tmpk3v9x2q1"] |};
      log :=
        announcement sample_args ++
        [EvMkdtemp (py "/tmp/tmpk3v9x2q1");
         EvExec (py "git config --global http.postBuffer 524288000") None
           {| returncode := 0; stdout := []; stderr := [] |};
         EvExec (clone_command (py "/tmp/tmpk3v9x2q1/nearcore")) None
           {| returncode := 0; stdout := []; stderr := [] |};
         EvRemove LOCK_FILE] |}).
Proof. vm_compute. reflexivity. Qed.

(** ** The words of the benchmark command *)

Lemma words_from_plain (a rest word : str) :
  plain_word a -> words_from (a ++ rest) word = words_from rest (word ++ a).
Proof.
  unfold plain_word. revert word. induction a as [|c a IH]; intros word H.
  - now rewrite app_nil_r.
  - simpl in H. apply andb_true_iff in H as [Hc Ha].
    apply negb_true_iff in Hc. simpl. rewrite Hc, IH by exact Ha.
    now rewrite <- app_assoc.
Qed.

Lemma words_from_command_line (arguments : list str) :
  Forall plain_word arguments ->
  forall program word,
    plain_word program ->
    words_from (program ++ List.concat (map (fun a => SPACE :: a) arguments)) word =
    (word ++ program) :: arguments.
Proof.
  induction 1 as [|a rest Ha _ IH]; intros program word Hp.
  - simpl. now rewrite words_from_plain by exact Hp.
  - simpl. rewrite words_from_plain by exact Hp. simpl.
    f_equal. apply (IH a [] Ha).
Qed.

Lemma words_command_line (program : str) (arguments : list str) :
  plain_word program -> Forall plain_word arguments ->
  words (command_line program arguments) = program :: arguments.
Proof.
  intros Hp Ha. unfold words, command_line.
  now rewrite words_from_command_line.
Qed.

(** With fields that are plain words, the words of the benchmark command
    are the driver script and the seven fields. *)
Lemma benchmark_words (args : namespace) :
  Forall plain_word (benchmark_arguments args) ->
  words (benchmark_command (time args) (users args) (state args) (shards args)
           (nodes args) (rump_up args) (user args)) =
  py "./scripts/start_benchmark.sh" :: benchmark_arguments args.
Proof.
  intros H. rewrite <- (words_command_line (program := py "./scripts/start_benchmark.sh"))
    by (exact H || reflexivity).
  f_equal. unfold benchmark_command, command_line, benchmark_arguments.
  change (py "./scripts/start_benchmark.sh ")
    with (py "./scripts/start_benchmark.sh" ++ [SPACE]).
  change (py " ") with [SPACE]. simpl List.concat.
  rewrite <- !app_assoc. simpl. now rewrite app_nil_r.
Qed.

(** C4 does not hold of the code for a user identifier that holds a
    blank: the command line [--user "a b"] is parsed into a configuration
    whose seven fields are 1h, 100, 1G, 1, 1, 5 and [a b]; [main] starts the
    benchmark with one command, in the repository directory, but the
    fields are pasted into the command unquoted, and the command reads as
    the driver script followed by eight arguments, the last two being [a]
    and [b]. *)
Theorem blank_in_user_splits_argument :
  exists args w' result,
    parse_args ascii_int [(FUser, py "a b")] = Return args /\
    benchmark_arguments args =
      [py "1h"; py "100"; py "1G"; py "1"; py "1"; py "5"; py "a b"] /\
    main (sample_os nothing_fails) ascii_int [(FUser, py "a b")] empty_world =
      (Return tt, w') /\
    filter (fun e => startswith (py "./scripts/") (fst (command_of e))) (log w') =
      [EvExec (benchmark_command (time args) (users args) (state args)
                 (shards args) (nodes args) (rump_up args) (user args))
              (Some (py "/tmp/tmpk3v9x2q1/nearcore")) result] /\
    words (benchmark_command (time args) (users args) (state args)
             (shards args) (nodes args) (rump_up args) (user args)) =
      [py "./scripts/start_benchmark.sh";
       py "1h"; py "100"; py "1G"; py "1"; py "1"; py "5"; py "a"; py "b"].
Proof.
  do 3 eexists. split; [reflexivity|]. split; [reflexivity|].
  split; [vm_compute; reflexivity|]. split; vm_compute; reflexivity.
Qed.

(** C8 does not hold of the code: the duration ["30m\n"] is malformed, it
    is not [<non-negative integer><unit>], and yet it passes the argument
    parser, as ["30m"]; [main] then writes the lock file, creates the
    temporary directory and runs the commands of a whole run.  The same
    holds of the malformed state size ["500K\n"]. *)
Theorem malformed_argument_is_run :
  ~ duration_grammar (py "30m" ++ [LF]) /\
  main (sample_os nothing_fails) ascii_int [(FTime, py "30m" ++ [LF])] empty_world =
  (Return tt,
   {| fs := {| lock_file := None; dirs := [] |};
      log :=
        [EvWrite LOCK_FILE (py "default_user");
         EvPrint (py "Time: 30m");
         EvPrint (py "Users: 100");
         EvPrint (py "State: 1G");
         EvPrint (py "Shards: 1");
         EvPrint (py "Nodes: 1");
         EvPrint (py "Rump-up: 5");
         EvPrint (py "User: default_user");
         EvMkdtemp (py "/tmp/tmpk3v9x2q1");
         EvExec (py "git config --global http.postBuffer 524288000") None
           {| returncode := 0; stdout := []; stderr := [] |};
         EvExec (py "git clone https://github.com/near/nearcore /tmp/tmpk3v9x2q1/nearcore")
           None {| returncode := 0; stdout := []; stderr := [] |};
         EvExec (py "git fetch") (Some (py "/tmp/tmpk3v9x2q1/nearcore"))
           {| returncode := 0; stdout := []; stderr := [] |};
         EvExec (py "git rev-parse origin/master")
           (Some (py "/tmp/tmpk3v9x2q1/nearcore"))
           {| returncode := 0; stdout := py "abc123" ++ [LF]; stderr := [] |};
         EvExec (py "git checkout abc123") (Some (py "/tmp/tmpk3v9x2q1/nearcore"))
           {| returncode := 0; stdout := []; stderr := [] |};
         EvPrint (py "Using commit: abc123");
         EvExec (py "./scripts/start_benchmark.sh 30m 100 1G 1 1 5 default_user")
           (Some (py "/tmp/tmpk3v9x2q1/nearcore"))
           {| returncode := 0; stdout := []; stderr := [] |};
         EvRemove LOCK_FILE;
         EvRmtree (py "/tmp/tmpk3v9x2q1")] |}) /\
  ~ state_grammar (py "500K" ++ [LF]) /\
  firstn 1 (log (snd (main (sample_os nothing_fails) ascii_int
                        [(FState, py "500K" ++ [LF])] empty_world))) =
  [EvWrite LOCK_FILE (py "default_user")].
Proof.
  split; [exact newline_not_duration|]. split; [vm_compute; reflexivity|].
  split; [exact newline_not_state|]. vm_compute. reflexivity.
Qed.

(** * Further properties of the script *)

(** ** More on the validators *)

(** X1: a value returned by a validator is in canonical form: validating
    it again returns it unchanged. *)
Theorem validators_idempotent (s t : str) :
  (parse_time s = Return t -> parse_time t = Return t) /\
  (parse_state s = Return t -> parse_state t = Return t).
Proof.
  split; intros H.
  - apply parse_time_returns in H as (G & _). now apply parse_time_accepts.
  - apply parse_state_returns in H as (G & _). now apply parse_state_accepts.
Qed.

Lemma validators_idempotent_witness :
  parse_time (py "30m") = Return (py "30m").
Proof.
  apply (proj1 (validators_idempotent (py "30m" ++ [LF]) (py "30m"))).
  reflexivity.
Defined.

Lemma duration_not_state (s t : str) :
  parse_time s = Return t ->
  parse_state s = Raise (ArgumentTypeError (invalid_state_message s)).
Proof.
  intros H. apply parse_time_returns in H as (G & Hs & _).
  destruct G as (ds & u & [Hne Hds] & Hu & ->).
  assert (Hnd : isdecimal u = false).
  { apply unit_not_digit. now apply existsb_In. }
  assert (Hk : existsb (N.eqb u) (py "KMG") = false /\ N.eqb u LF = false).
  { simpl in Hu. destruct Hu as [<-|[<-|[<-|[]]]]; split; reflexivity. }
  destruct Hk as [Hk Hl].
  unfold parse_state. rewrite match_state.
  destruct Hs as [->| ->].
  - destruct (digits_split ds u [] Hds Hnd) as [-> ->].
    destruct ds; [congruence|]. now rewrite Hk, Hl.
  - rewrite <- app_assoc. change ([u] ++ [LF]) with (u :: [LF]).
    destruct (digits_split ds u [LF] Hds Hnd) as [-> ->].
    destruct ds; [congruence|]. now rewrite Hk.
Qed.

(** X2: no string is both a duration and a state size: every string is
    rejected by [parse_time] or by [parse_state], so a value given to the
    wrong option is always reported. *)
Theorem validators_disjoint (s : str) :
  parse_time s = Raise (ArgumentTypeError (invalid_time_message s)) \/
  parse_state s = Raise (ArgumentTypeError (invalid_state_message s)).
Proof.
  destruct (parse_time_total s) as [[t Ht]|H]; [right|now left].
  now apply duration_not_state with t.
Qed.

(** Decimal literals *)

Lemma uint_digits (d : Decimal.uint) :
  forallb isdecimal (py (NilEmpty.string_of_uint d)) = true.
Proof.
  induction d; simpl; try assumption; reflexivity.
Qed.

Lemma uint_string (d : Decimal.uint) :
  py (NilZero.string_of_uint d) <> [] /\
  forallb isdecimal (py (NilZero.string_of_uint d)) = true.
Proof.
  destruct d; (split; [discriminate|]);
    try reflexivity; apply (uint_digits (_ d)) || exact (uint_digits _).
Qed.

Lemma str_of_int_neg (p : positive) :
  str_of_int (Zneg p) = 45%N :: py (NilZero.string_of_uint (Pos.to_uint p)).
Proof. reflexivity. Qed.

Lemma str_of_int_nonneg (n : Z) :
  (0 <= n)%Z -> digits (str_of_int n).
Proof.
  intros H. destruct n as [|p|p]; [split; [discriminate|reflexivity]| |lia].
  apply (uint_string (Pos.to_uint p)).
Qed.

(** X3: the decimal form [str(n)] of an integer that CPython converts,
    one of at most [int_max_str_digits] digits, is accepted as a state size
    and, followed by a unit, as a duration exactly when the integer is not
    negative. *)
Theorem decimal_literals (n : Z) (u : char) :
  (Z.abs n < 10 ^ int_max_str_digits)%Z ->
  In u (py "hms") ->
  if (0 <=? n)%Z then
    parse_time (str_of_int n ++ [u]) = Return (str_of_int n ++ [u]) /\
    parse_state (str_of_int n) = Return (str_of_int n)
  else
    parse_time (str_of_int n ++ [u]) =
      Raise (ArgumentTypeError (invalid_time_message (str_of_int n ++ [u]))) /\
    parse_state (str_of_int n) =
      Raise (ArgumentTypeError (invalid_state_message (str_of_int n))).
Proof.
  intros _ Hu. destruct (Z.leb_spec 0 n) as [H|H].
  - apply str_of_int_nonneg in H. split.
    + apply parse_time_accepts. now exists (str_of_int n), u.
    + apply parse_state_accepts. exists (str_of_int n). auto.
  - destruct n as [|p|p]; try lia. rewrite str_of_int_neg.
    unfold parse_time, parse_state. rewrite match_time, match_state.
    split; reflexivity.
Qed.

Lemma decimal_literals_witness :
  parse_time (str_of_int 90 ++ [115%N]) = Return (str_of_int 90 ++ [115%N]) /\
  parse_state (str_of_int 90) = Return (str_of_int 90).
Proof.
  apply (@decimal_literals 90 115%N).
  - vm_compute. reflexivity.
  - simpl. right. right. left. reflexivity.
Defined.

(** ** More on external commands *)

Lemma dropwhile_fix (p : char -> bool) (s : str) :
  match s with [] => True | c :: _ => p c = false end -> dropwhile p s = s.
Proof. destruct s as [|c s]; simpl; [reflexivity|]. now intros ->. Qed.

Lemma strip_idempotent (s : str) : strip (strip s) = strip s.
Proof.
  unfold strip, lstrip, rstrip.
  set (v := dropwhile isspace (rev s)).
  set (t := dropwhile isspace (rev v)).
  pose proof (dropwhile_head isspace (rev s)) as Hv. fold v in Hv.
  pose proof (dropwhile_head isspace (rev v)) as Ht. fold t in Ht.
  pose proof (takewhile_dropwhile isspace (rev v)) as E. fold t in E.
  assert (R : dropwhile isspace (rev t) = rev t).
  { apply dropwhile_fix. apply (f_equal (@rev char)) in E.
    rewrite rev_app_distr, rev_involutive in E.
    destruct (rev t) as [|x rt]; [exact I|].
    rewrite <- E in Hv. exact Hv. }
  rewrite R, rev_involutive. now apply dropwhile_fix.
Qed.

(** X4: [run_command] with a working directory that does not exist
    raises [FileNotFoundError] for that directory and runs nothing.
    Otherwise it runs the command once; on exit status 0 it returns the
    captured output stripped, a text that has no white space left at
    either end; on any other status it raises a [RuntimeError] that quotes
    the command and carries the captured error output. *)
Theorem run_command_contract (os : environment) (command : str)
    (cwd : option str) (w : world) :
  if cwd_exists cwd (fs w) then
    snd (run_command os command cwd w) =
      {| fs := snd (shell os command cwd (fs w));
         log := log w ++ [EvExec command cwd (fst (shell os command cwd (fs w)))] |} /\
    if (returncode (fst (shell os command cwd (fs w))) =? 0)%Z then
      exists out,
        fst (run_command os command cwd w) = Return out /\
        out = strip (stdout (fst (shell os command cwd (fs w)))) /\
        strip out = out
    else
      fst (run_command os command cwd w) =
      Raise (RuntimeError
               (py "Command '" ++ command ++ py "' failed with error: " ++
                stderr (fst (shell os command cwd (fs w)))))
  else
    exists d,
      cwd = Some d /\
      run_command os command cwd w = (Raise (FileNotFoundError d), w).
Proof.
  destruct (cwd_exists cwd (fs w)) eqn:C.
  - rewrite run_command_eq by exact C. split; [reflexivity|].
    destruct (_ =? _)%Z; [|reflexivity].
    eexists. split; [reflexivity|]. split; [reflexivity|apply strip_idempotent].
  - destruct cwd as [d|]; [|discriminate]. exists d. split; [reflexivity|].
    now apply run_command_missing.
Qed.

(** ** More on the command line *)

Lemma store_fields (int : str -> option Z) (s s1 : seen) (o : flag) (v : str) :
  store int s o v = Return s1 ->
  s_time s1 = (if flag_eqb FTime o then returned (parse_time v) else s_time s) /\
  s_users s1 = (if flag_eqb FUsers o then int v else s_users s) /\
  s_state s1 = (if flag_eqb FState o then returned (parse_state v) else s_state s) /\
  s_shards s1 = (if flag_eqb FShards o then int v else s_shards s) /\
  s_nodes s1 = (if flag_eqb FNodes o then int v else s_nodes s) /\
  s_rump_up s1 = (if flag_eqb FRumpUp o then int v else s_rump_up s) /\
  s_user s1 = (if flag_eqb FUser o then Some v else s_user s) /\
  s_commit s1 = (if flag_eqb FCommit o then Some v else s_commit s).
Proof.
  destruct o; simpl; unfold convert_str, convert_int;
    try destruct (parse_time v); try destruct (parse_state v);
    try destruct (int v); intros [= <-]; simpl; repeat split.
Qed.

Lemma consume_fields (int : str -> option Z) (argv : list (flag * str)) :
  forall s s',
    consume int argv s = Return s' ->
    s_time s' = match last_value FTime argv with
                | Some v => returned (parse_time v) | None => s_time s end /\
    s_users s' = match last_value FUsers argv with
                 | Some v => int v | None => s_users s end /\
    s_state s' = match last_value FState argv with
                 | Some v => returned (parse_state v) | None => s_state s end /\
    s_shards s' = match last_value FShards argv with
                  | Some v => int v | None => s_shards s end /\
    s_nodes s' = match last_value FNodes argv with
                 | Some v => int v | None => s_nodes s end /\
    s_rump_up s' = match last_value FRumpUp argv with
                   | Some v => int v | None => s_rump_up s end /\
    s_user s' = match last_value FUser argv with
                | Some v => Some v | None => s_user s end /\
    s_commit s' = match last_value FCommit argv with
                  | Some v => Some v | None => s_commit s end.
Proof.
  induction argv as [|[o v] rest IH]; intros s s' H.
  - injection H as <-. simpl. repeat split.
  - simpl in H. destruct (store int s o v) as [s1|] eqn:Es; [|discriminate].
    apply IH in H. apply store_fields in Es.
    destruct H as (H1 & H2 & H3 & H4 & H5 & H6 & H7 & H8).
    destruct Es as (E1 & E2 & E3 & E4 & E5 & E6 & E7 & E8).
    rewrite H1, H2, H3, H4, H5, H6, H7, H8. simpl last_value.
    rewrite E1, E2, E3, E4, E5, E6, E7, E8.
    repeat split;
      match goal with
      | |- context [last_value ?f rest] => destruct (last_value f rest)
      end; try reflexivity; destruct o; reflexivity.
Qed.

Lemma store_outcome (int : str -> option Z) (s : seen) (o : flag) (v : str) :
  (accepted_value int (o, v) /\ exists s1, store int s o v = Return s1) \/
  (~ accepted_value int (o, v) /\ store int s o v = Raise (SystemExit 2)).
Proof.
  unfold accepted_value.
  destruct o; simpl; unfold convert_str, convert_int;
    repeat match goal with
           | |- context [match ?c with _ => _ end] =>
               match c with
               | parse_time v => destruct c eqn:?
               | parse_state v => destruct c eqn:?
               | int v => destruct c eqn:?
               end
           end;
    first [ left; split; eauto; fail
          | right; split; [intros [x Hx]; discriminate|reflexivity] ].
Qed.

Lemma consume_outcome (int : str -> option Z) (argv : list (flag * str)) :
  forall s,
    (Forall (accepted_value int) argv /\ exists s', consume int argv s = Return s') \/
    (Exists (fun ov => ~ accepted_value int ov) argv /\
     consume int argv s = Raise (SystemExit 2)).
Proof.
  induction argv as [|[o v] rest IH]; intros s.
  - left. split; [constructor|]. exists s. reflexivity.
  - simpl. destruct (store_outcome int s o v) as [[Ha [s1 ->]]|[Hr ->]].
    + destruct (IH s1) as [[Hall Hs]|[Hex Hs]].
      * left. split; [now constructor|exact Hs].
      * right. split; [now apply Exists_cons_tl|exact Hs].
    + right. split; [now apply Exists_cons_hd|reflexivity].
Qed.

Lemma defaults_return (s : seen) : exists args, defaults s = Return args.
Proof.
  unfold defaults, with_default.
  destruct (s_time s), (s_state s); eexists; reflexivity.
Qed.

Lemma last_value_In (o : flag) (argv : list (flag * str)) (v : str) :
  last_value o argv = Some v -> In (o, v) argv.
Proof.
  induction argv as [|[o' v'] rest IH]; simpl; [discriminate|].
  destruct (last_value o rest) as [x|].
  - intros [= ->]. right. now apply IH.
  - destruct (flag_eqb o o') eqn:E; [|discriminate].
    intros [= ->]. left. destruct o, o'; try discriminate; reflexivity.
Qed.

(** X5: when some value given on the command line is rejected by the
    conversion of its option ([parse_time], [parse_state], or [int] for
    the options that take an integer), the argument parser exits with
    status 2 and [main] ends there, in the world it started in: no lock
    file is written, no directory created, no command run. *)
Theorem rejected_value_exits (os : environment) (int : str -> option Z)
    (argv : list (flag * str)) (w : world) :
  Exists (fun ov => ~ accepted_value int ov) argv ->
  parse_args int argv = Raise (SystemExit 2) /\
  main os int argv w = (Raise (SystemExit 2), w).
Proof.
  intros H. unfold main, parse_args.
  rewrite (@rejected_value_consume int argv H nothing_seen). split; reflexivity.
Qed.

Lemma rejected_value_exits_witness :
  parse_args ascii_int [(FUser, py "alice"); (FTime, py "2d"); (FUsers, py "ten")] =
    Raise (SystemExit 2) /\
  main (sample_os nothing_fails) ascii_int
    [(FUser, py "alice"); (FTime, py "2d"); (FUsers, py "ten")] empty_world =
  (Raise (SystemExit 2), empty_world).
Proof.
  apply (@rejected_value_exits (sample_os nothing_fails) ascii_int
           [(FUser, py "alice"); (FTime, py "2d"); (FUsers, py "ten")] empty_world).
  apply Exists_cons_tl, Exists_cons_tl, Exists_cons_hd.
  intros [n H]. vm_compute in H. discriminate.
Defined.

Lemma parse_args_accepts (int : str -> option Z) (argv : list (flag * str))
    (args : namespace) :
  parse_args int argv = Return args -> Forall (accepted_value int) argv.
Proof.
  intros H. unfold parse_args in H.
  destruct (consume_outcome int argv nothing_seen) as [[Hall _]|[_ E]];
    [exact Hall|]. rewrite E in H. discriminate.
Qed.

Lemma field_of_str (conv : str -> outcome str) (last : option str)
    (field : option str) (d0 d : str) :
  field = match last with Some v => returned (conv v) | None => None end ->
  (forall v, last = Some v -> exists t, conv v = Return t) ->
  convert_str conv d0 = Return d ->
  with_default field (convert_str conv d0) =
  match last with Some v => conv v | None => Return d end.
Proof.
  intros -> A Hd. destruct last as [v|]; [|exact Hd].
  destruct (A v eq_refl) as [t P]. now rewrite P.
Qed.

Lemma field_of_int (int : str -> option Z) (last : option str)
    (field : option Z) (d : Z) :
  field = match last with Some v => int v | None => None end ->
  (forall v, last = Some v -> exists n, int v = Some n) ->
  Some (match field with Some n => n | None => d end) =
  match last with Some v => int v | None => Some d end.
Proof.
  intros -> A. destruct last as [v|]; [|reflexivity].
  destruct (A v eq_refl) as [n P]. now rewrite P.
Qed.

(** X6: in a parsed command line every field is the converted value of
    the last occurrence of its option, or the default of the option when
    it was not given: 1h, 100, 1G, 1, 1, 5, default_user, no commit. *)
Theorem parse_args_fields (int : str -> option Z) (argv : list (flag * str))
    (args : namespace) :
  parse_args int argv = Return args ->
  Return (time args) =
    match last_value FTime argv with
    | Some v => parse_time v | None => Return (py "1h") end /\
  Some (users args) =
    match last_value FUsers argv with
    | Some v => int v | None => Some 100%Z end /\
  Return (state args) =
    match last_value FState argv with
    | Some v => parse_state v | None => Return (py "1G") end /\
  Some (shards args) =
    match last_value FShards argv with
    | Some v => int v | None => Some 1%Z end /\
  Some (nodes args) =
    match last_value FNodes argv with
    | Some v => int v | None => Some 1%Z end /\
  Some (rump_up args) =
    match last_value FRumpUp argv with
    | Some v => int v | None => Some 5%Z end /\
  user args =
    match last_value FUser argv with
    | Some v => v | None => py "default_user" end /\
  commit args = last_value FCommit argv.
Proof.
  intros H. pose proof (@parse_args_accepts int argv args H) as Hall.
  rewrite Forall_forall in Hall.
  assert (A : forall o v, last_value o argv = Some v -> accepted_value int (o, v)).
  { intros o v Hl. apply Hall. now apply last_value_In. }
  unfold parse_args in H.
  destruct (consume int argv nothing_seen) as [s|] eqn:Ec; [|discriminate].
  apply consume_fields in Ec.
  destruct Ec as (E1 & E2 & E3 & E4 & E5 & E6 & E7 & E8).
  cbn [nothing_seen s_time s_users s_state s_shards s_nodes s_rump_up s_user s_commit] in *.
  unfold defaults in H.
  rewrite (@field_of_str parse_time (last_value FTime argv) (s_time s)
             (py "1h") (py "1h") E1 (A FTime) eq_refl) in H.
  rewrite (@field_of_str parse_state (last_value FState argv) (s_state s)
             (py "1G") (py "1G") E3 (A FState) eq_refl) in H.
  destruct (match last_value FTime argv with
            | Some v => parse_time v | None => Return (py "1h") end) as [t|];
    [|discriminate].
  destruct (match last_value FState argv with
            | Some v => parse_state v | None => Return (py "1G") end) as [t'|];
    [|discriminate].
  injection H as <-. cbn [time users state shards nodes rump_up user commit].
  split; [reflexivity|]. split; [exact (@field_of_int int (last_value FUsers argv) _ 100%Z E2 (A FUsers))|].
  split; [reflexivity|]. split; [exact (@field_of_int int (last_value FShards argv) _ 1%Z E4 (A FShards))|].
  split; [exact (@field_of_int int (last_value FNodes argv) _ 1%Z E5 (A FNodes))|].
  split; [exact (@field_of_int int (last_value FRumpUp argv) _ 5%Z E6 (A FRumpUp))|].
  rewrite E7, E8. destruct (last_value FUser argv), (last_value FCommit argv);
    split; reflexivity.
Qed.

Lemma parse_args_fields_witness :
  Return (time sample_args) = parse_time (py "2h") /\
  Some (users sample_args) = ascii_int (py "50").
Proof.
  destruct (@parse_args_fields ascii_int sample_argv sample_args eq_refl)
    as (H1 & H2 & _).
  split; [exact H1|exact H2].
Defined.

Lemma parse_args_time_state (int : str -> option Z) (argv : list (flag * str))
    (args : namespace) :
  parse_args int argv = Return args ->
  (exists v, parse_time v = Return (time args)) /\
  (exists v, parse_state v = Return (state args)).
Proof.
  intros H. pose proof (@parse_args_accepts int argv args H) as Hall.
  rewrite Forall_forall in Hall.
  assert (A : forall o v, last_value o argv = Some v -> accepted_value int (o, v)).
  { intros o v Hl. apply Hall. now apply last_value_In. }
  unfold parse_args in H.
  destruct (consume int argv nothing_seen) as [s|] eqn:Ec; [|discriminate].
  apply consume_fields in Ec. destruct Ec as (E1 & _ & E3 & _).
  cbn [nothing_seen s_time s_state] in *.
  unfold defaults in H.
  rewrite (@field_of_str parse_time (last_value FTime argv) (s_time s)
             (py "1h") (py "1h") E1 (A FTime) eq_refl) in H.
  rewrite (@field_of_str parse_state (last_value FState argv) (s_state s)
             (py "1G") (py "1G") E3 (A FState) eq_refl) in H.
  assert (T : exists v, match last_value FTime argv with
                        | Some v => parse_time v | None => Return (py "1h") end
                        = parse_time v).
  { destruct (last_value FTime argv) as [v|]; [now exists v|now exists (py "1h")]. }
  assert (S : exists v, match last_value FState argv with
                        | Some v => parse_state v | None => Return (py "1G") end
                        = parse_state v).
  { destruct (last_value FState argv) as [v|]; [now exists v|now exists (py "1G")]. }
  destruct T as [vt Et], S as [vs Es]. rewrite Et, Es in H.
  destruct (parse_time vt) as [t|] eqn:Pt; [|discriminate].
  destruct (parse_state vs) as [t'|] eqn:Ps; [|discriminate].
  injection H as <-. cbn [time state]. eauto.
Qed.

(** X7: every configuration that leaves the parser carries a duration
    and a state size of the grammar, without trailing newline, which the
    validators accept unchanged. *)
Theorem parse_args_validated (int : str -> option Z) (argv : list (flag * str))
    (args : namespace) :
  parse_args int argv = Return args ->
  duration_grammar (time args) /\ state_grammar (state args) /\
  parse_time (time args) = Return (time args) /\
  parse_state (state args) = Return (state args).
Proof.
  intros H. apply parse_args_time_state in H as [[vt Ht] [vs Hs]].
  apply parse_time_returns in Ht as (Gt & _).
  apply parse_state_returns in Hs as (Gs & _).
  repeat split; try assumption.
  - now apply parse_time_accepts.
  - now apply parse_state_accepts.
Qed.

Lemma parse_args_validated_witness :
  duration_grammar (py "30m") /\ state_grammar (py "500K").
Proof.
  destruct (@parse_args_validated ascii_int
              [(FTime, py "30m" ++ [LF]); (FState, py "500K" ++ [LF])]
              {| time := py "30m"; users := 100; state := py "500K"; shards := 1;
                 nodes := 1; rump_up := 5; user := py "default_user";
                 commit := None |} eq_refl) as (H1 & H2 & _).
  split; assumption.
Defined.

(** ** The words of a validated configuration *)

Lemma digits_plain (ds : str) :
  forallb isdecimal ds = true -> plain_word ds.
Proof.
  unfold plain_word. induction ds as [|c ds IH]; simpl; [reflexivity|].
  intros H. apply andb_true_iff in H as [Hc Hds]. rewrite IH by exact Hds.
  destruct (N.eqb_spec c SPACE) as [->|_]; [discriminate|reflexivity].
Qed.

Lemma plain_word_app (a b : str) :
  plain_word a -> plain_word b -> plain_word (a ++ b).
Proof.
  unfold plain_word. intros Ha Hb. rewrite forallb_app.
  now apply andb_true_iff.
Qed.

Lemma duration_plain (t : str) : duration_grammar t -> plain_word t.
Proof.
  intros (ds & u & [_ Hds] & Hu & ->).
  apply plain_word_app; [now apply digits_plain|].
  simpl in Hu. destruct Hu as [<-|[<-|[<-|[]]]]; reflexivity.
Qed.

Lemma state_plain (t : str) : state_grammar t -> plain_word t.
Proof.
  intros (ds & [_ Hds] & [->|(u & Hu & ->)]); [now apply digits_plain|].
  apply plain_word_app; [now apply digits_plain|].
  simpl in Hu. destruct Hu as [<-|[<-|[<-|[]]]]; reflexivity.
Qed.

Lemma str_of_int_plain (n : Z) : plain_word (str_of_int n).
Proof.
  destruct n as [|p|p].
  - reflexivity.
  - apply digits_plain. apply (str_of_int_nonneg (n := Zpos p)). lia.
  - rewrite str_of_int_neg. apply (plain_word_app (a := [45%N])); [reflexivity|].
    apply digits_plain. apply uint_string.
Qed.

(** X8: for a parsed configuration whose user identifier is a plain
    word, the benchmark command splits at blanks into the driver script
    and exactly the seven fields, in order. *)
Theorem validated_benchmark_words (int : str -> option Z)
    (argv : list (flag * str)) (args : namespace) :
  parse_args int argv = Return args ->
  plain_word (user args) ->
  words (benchmark_command (time args) (users args) (state args) (shards args)
           (nodes args) (rump_up args) (user args)) =
  [py "./scripts/start_benchmark.sh"; time args; str_of_int (users args);
   state args; str_of_int (shards args); str_of_int (nodes args);
   str_of_int (rump_up args); user args].
Proof.
  intros H Hu. apply parse_args_time_state in H as [[vt Ht] [vs Hs]].
  apply parse_time_returns in Ht as (Gt & _).
  apply parse_state_returns in Hs as (Gs & _).
  apply benchmark_words. unfold benchmark_arguments.
  repeat (apply Forall_cons; [|]); try apply Forall_nil;
    try apply str_of_int_plain; trivial.
  - now apply duration_plain.
  - now apply state_plain.
Qed.

Lemma validated_benchmark_words_witness :
  words (benchmark_command (py "2h") 50 (py "2G") 4 2 10 (py "alice")) =
  [py "./scripts/start_benchmark.sh"; py "2h"; str_of_int 50; py "2G";
   str_of_int 4; str_of_int 2; str_of_int 10; py "alice"].
Proof.
  apply (@validated_benchmark_words ascii_int sample_argv sample_args);
    reflexivity.
Defined.

(** ** The exceptions of the script *)















(** ** More on the orchestrator *)

(** X11: the log of a run that takes the lock, on a well-behaved system:
    the lock file is written and the configuration printed, the temporary
    directory is created and prepared, the commit is reported after its
    checkout and before the benchmark command, and the cleanup follows; when
    the preparation fails the benchmark command is never run, and the error
    is printed before the lock is released. *)
Theorem main_run_trace (os : environment) (args : namespace) (w : world) :
  well_behaved os ->
  lock_file (fs w) = None ->
  isdir (run_temp_dir os args w) (fs w) = false ->
  Posixpath.endswith_slash (run_temp_dir os args w) = false ->
  exists w' evs,
    main_run os args w = (Return tt, w') /\
    ((exists c result tail,
        checkout_ok_log (Posixpath.join (run_temp_dir os args w) (py "nearcore"))
          (commit args) c evs /\
        log w' =
          log w ++ announcement args ++
          EvMkdtemp (run_temp_dir os args w) :: evs ++
          EvPrint (py "Using commit: " ++ c) ::
          EvExec (benchmark_command (time args) (users args) (state args)
                    (shards args) (nodes args) (rump_up args) (user args))
                 (Some (Posixpath.join (run_temp_dir os args w) (py "nearcore")))
                 result ::
          tail ++ [EvRemove LOCK_FILE; EvRmtree (run_temp_dir os args w)] /\
        ((returncode result = 0%Z /\ tail = []) \/
         (returncode result <> 0%Z /\
          tail = [EvPrint (failure_message
                             (benchmark_command (time args) (users args) (state args)
                                (shards args) (nodes args) (rump_up args) (user args))
                             result)]))) \/
     (exists msg,
        checkout_failed_log (run_temp_dir os args w)
          (Posixpath.join (run_temp_dir os args w) (py "nearcore"))
          (commit args) msg evs /\
        log w' =
          log w ++ announcement args ++
          EvMkdtemp (run_temp_dir os args w) :: evs ++
          [EvPrint msg; EvRemove LOCK_FILE])).
Proof.
  unfold run_temp_dir. intros WB Hfree Hfresh Hshape.
  set (f1 := {| lock_file := Some (user args); dirs := dirs (fs w) |}) in *.
  set (d := mkdtemp_name os f1) in *.
  set (repo := Posixpath.join d (py "nearcore")).
  set (bench := benchmark_command (time args) (users args) (state args)
                  (shards args) (nodes args) (rump_up args) (user args)).
  unfold main_run, main_try.
  unfold bind at 1. rewrite (create_lock_file_free (user args) w Hfree).
  do 7 (unfold bind at 1; unfold print at 1).
  unfold emit. cbn [fs log]. fold f1.
  rewrite <- !app_assoc. cbn [app]. fold (announcement args).
  match goal with
  | |- context [checkout_repo os (commit args) ?W] =>
      destruct (@checkout_repo_cases os (commit args) W WB Hfresh)
        as (r & w2 & evs & E & Hlog & Hlock & H)
  end.
  rewrite E. cbn [fs log lock_file dirs] in *. fold d in H, Hlog. fold repo in H.
  change (lock_file f1) with (Some (user args)) in Hlock.
  destruct H as [(c & -> & Hok & Hd & Hrepo & _)|
                 (msg & ran & fr & -> & Hfail & Hgone & _)].
  - unfold bind at 1. unfold print at 1. unfold run_benchmark, bind. fold bench.
    unfold emit.
    run_step WB rb fb Sb Lb Db Rb Eb.
    + unfold ret at 1.
      rewrite (@finally_with_workspace d (user args));
        [|cbn [fs]; congruence|exact Hshape|cbn [fs]; auto|cbn [fs]; auto].
      do 2 eexists. split; [reflexivity|]. left.
      exists c, rb, []. split; [exact Hok|]. cbn [fs log].
      split; [rewrite Hlog; list_eq|now left].
    + unfold print. unfold emit. cbn [fs log].
      rewrite (@finally_with_workspace d (user args));
        [|cbn [fs]; congruence|exact Hshape|cbn [fs]; auto|cbn [fs]; auto].
      do 2 eexists. split; [reflexivity|]. left.
      exists c, rb, [EvPrint (failure_message bench rb)].
      split; [exact Hok|]. cbn [fs log].
      split; [rewrite Hlog; list_eq|now right].
  - unfold print, emit. cbn [fs log].
    rewrite (@finally_without_workspace (user args)); cbn [fs log]; [|congruence].
    do 2 eexists. split; [reflexivity|]. right.
    exists msg. split; [exact Hfail|]. cbn [log]. rewrite Hlog. list_eq.
Qed.

Lemma main_run_trace_witness :
  exists evs c,
    checkout_ok_log (py "/tmp/tmpk3v9x2q1/nearcore") (Some (py "abc123")) c evs \/
    exists msg,
      checkout_failed_log (py "/tmp/tmpk3v9x2q1") (py "/tmp/tmpk3v9x2q1/nearcore")
        (Some (py "abc123")) msg evs.
Proof.
  destruct (@main_run_trace (sample_os nothing_fails) sample_args empty_world
              (sample_os_well_behaved nothing_fails) eq_refl eq_refl eq_refl)
    as (w' & evs & _ & [(c & _ & _ & H & _)|(msg & H & _)]).
  - exists evs, c. left. exact H.
  - exists evs, []. right. exists msg. exact H.
Defined.

(** X10: when [mkdtemp] cannot create its directory, the error is not
    caught by [main]: it escapes after the lock file, written and the
    configuration printed, has been removed again; no command is run and
    the directories are untouched. *)
Theorem main_run_tempdir_taken (os : environment) (args : namespace) (w : world) :
  lock_file (fs w) = None ->
  isdir (run_temp_dir os args w) (fs w) = true ->
  main_run os args w =
  (Raise (FileExistsError (run_temp_dir os args w)),
   {| fs := {| lock_file := None; dirs := dirs (fs w) |};
      log := log w ++ announcement args ++ [EvRemove LOCK_FILE] |}).
Proof.
  unfold run_temp_dir. intros Hfree Htaken.
  unfold main_run, main_try.
  unfold bind at 1. rewrite (create_lock_file_free (user args) w Hfree).
  do 7 (unfold bind at 1; unfold print at 1).
  unfold emit. cbn [fs log].
  unfold checkout_repo. unfold bind at 1. unfold mkdtemp. cbn [fs log].
  unfold isdir in *. cbn [dirs]. rewrite Htaken.
  rewrite (@finally_without_workspace (user args)) by reflexivity.
  cbn [fs log dirs]. f_equal. f_equal. list_eq.
Qed.

Lemma main_run_tempdir_taken_witness :
  fst (main_run (sample_os nothing_fails) sample_args
         {| fs := {| lock_file := None; dirs := [py "/tmp/tmpk3v9x2q1"] |};
            log := [] |}) =
  Raise (FileExistsError (py "/tmp/tmpk3v9x2q1")).
Proof.
  rewrite (@main_run_tempdir_taken (sample_os nothing_fails) sample_args
             {| fs := {| lock_file := None; dirs := [py "/tmp/tmpk3v9x2q1"] |};
                log := [] |} eq_refl eq_refl).
  reflexivity.
Defined.

(** ** More on the run lock *)

(** X12: acquiring the free lock and releasing it restores the file
    system; one write and one removal are logged. *)
Theorem acquire_release_round_trip (u : str) (w : world) :
  lock_file (fs w) = None ->
  (create_lock_file u ;; remove_lock_file) w =
  (Return tt,
   {| fs := fs w; log := log w ++ [EvWrite LOCK_FILE u; EvRemove LOCK_FILE] |}).
Proof.
  intros H. unfold bind. rewrite (create_lock_file_free u w H).
  rewrite (@remove_lock_file_held u) by reflexivity.
  cbn [fs log dirs]. rewrite <- app_assoc.
  destruct w as [[l ds] lg]. cbn in *. now subst.
Qed.

Lemma acquire_release_witness :
  (create_lock_file (py "alice") ;; remove_lock_file) empty_world =
  (Return tt,
   {| fs := fs empty_world;
      log := log empty_world ++ [EvWrite LOCK_FILE (py "alice"); EvRemove LOCK_FILE] |}).
Proof. apply (@acquire_release_round_trip (py "alice") empty_world eq_refl). Defined.

(** ** More on paths *)

Lemma startswith_app (a b : str) : startswith a (a ++ b) = true.
Proof.
  induction a as [|x a IH]; simpl; [reflexivity|]. now rewrite N.eqb_refl.
Qed.

(** X13: for a temporary directory whose name does not end in a slash,
    the repository path is that name followed by [/nearcore], it lies under
    the temporary directory, and its [dirname], the directory [main] tears
    down, is the temporary directory itself. *)
Theorem teardown_targets_temp_dir (temp_dir : str) :
  temp_dir <> [] ->
  Posixpath.endswith_slash temp_dir = false ->
  Posixpath.join temp_dir (py "nearcore") = temp_dir ++ py "/nearcore" /\
  Posixpath.dirname (Posixpath.join temp_dir (py "nearcore")) = temp_dir /\
  under temp_dir (Posixpath.join temp_dir (py "nearcore")) = true.
Proof.
  intros Hne Hs. split; [|split].
  - unfold Posixpath.join. simpl startswith. cbv iota. rewrite Hs.
    destruct temp_dir; [congruence|reflexivity].
  - now apply dirname_join.
  - unfold Posixpath.join. simpl startswith. cbv iota. rewrite Hs.
    destruct temp_dir as [|c t]; [congruence|]. cbn [orb].
    unfold under. apply orb_true_iff. right.
    rewrite (app_assoc (c :: t) [SLASH] (py "nearcore")).
    apply startswith_app.
Qed.

Lemma teardown_targets_witness :
  Posixpath.dirname (Posixpath.join (py "/tmp/tmpk3v9x2q1") (py "nearcore")) =
  py "/tmp/tmpk3v9x2q1".
Proof.
  apply (@teardown_targets_temp_dir (py "/tmp/tmpk3v9x2q1")); [discriminate|reflexivity].
Defined.
